(** * I2C driver templates: the device-level and API-level active objects

    Shallow embedding of [src/i2c_templates/device_level.c] and
    [src/i2c_templates/api_level.c].  Both files define a QP active object:
    a hierarchical state machine whose state handlers receive the object
    ([me]) and an event, mutate the object, call framework services
    (post, publish, timer arm/disarm) and return [Q_HANDLED()],
    [Q_SUPER(&parent)] or [Q_TRAN(&target)].

    - A handler is a computation in a small state-and-output monad: the
      state is the active object's data, the output is the list of
      framework calls it made, in order.
    - Timers are part of the object ([QTimeEvt] members): [None] when
      disarmed, [Some ms] when armed with a timeout of [ms] milliseconds.
    - [DEBUG_OUT] only writes to the debug console and is left out.
    - The event processor of the framework (QHsm_dispatch of QP/C) is not
      part of the repository; [QP.QHsm_dispatch] follows its algorithm. *)

From Stdlib Require Import ZArith List Bool Lia String Sorted.
Import ListNotations.
Open Scope Z_scope.

(* ================================================================== *)
(** * The QP framework: handler results, the handler monad, dispatch   *)
(* ================================================================== *)

Module QP.

(** What a state handler returns. [Q_SUPER_TOP] is [Q_SUPER(&QHsm_top)]. *)
Inductive QState (S : Type) : Type :=
| Q_HANDLED
| Q_SUPER (super : S)
| Q_SUPER_TOP
| Q_TRAN (target : S).
Arguments Q_HANDLED {S}.
Arguments Q_SUPER {S} super.
Arguments Q_SUPER_TOP {S}.
Arguments Q_TRAN {S} target.

(** A computation over the object [St] that records framework calls [Eff]. *)
Definition M (St Eff A : Type) : Type := St -> A * St * list Eff.

Definition ret {St Eff A} (a : A) : M St Eff A := fun me => (a, me, []).

Definition bind {St Eff A B} (c : M St Eff A) (k : A -> M St Eff B) : M St Eff B :=
  fun me =>
    let '(a, me1, o1) := c me in
    let '(b, me2, o2) := k a me1 in
    (b, me2, o1 ++ o2).

Definition get {St Eff} : M St Eff St := fun me => (me, me, []).
Definition modify {St Eff} (f : St -> St) : M St Eff unit := fun me => (tt, f me, []).
Definition emit {St Eff} (x : Eff) : M St Eff unit := fun me => (tt, me, [x]).

Definition result {St Eff A} (r : A * St * list Eff) : A := fst (fst r).
Definition object {St Eff A} (r : A * St * list Eff) : St := snd (fst r).
Definition calls {St Eff A} (r : A * St * list Eff) : list Eff := snd r.

Declare Scope qp_scope.
Delimit Scope qp_scope with qp.
Notation "x <- c ;; k" := (bind c (fun x => k))
  (at level 61, c at next level, right associativity) : qp_scope.
Notation "c ;; k" := (bind c (fun _ => k))
  (at level 61, right associativity) : qp_scope.

(** QHSM_MAX_NEST_DEPTH_ of QP/C: the deepest state nesting it supports. *)
Definition QHSM_MAX_NEST_DEPTH : nat := 6.

Section Hsm.
Context {S St Ev Eff : Type}.
Variable handler : S -> Ev -> M St Eff (QState S).
Variables Q_EMPTY_SIG Q_INIT_SIG Q_ENTRY_SIG Q_EXIT_SIG : Ev.
Variable S_eqb : S -> S -> bool.

Local Open Scope qp_scope.

(** QEP_TRIG_(t, QEP_EMPTY_SIG_): ask a handler for its superstate. *)
Definition super_of (me : St) (t : S) : option S :=
  match result (handler t Q_EMPTY_SIG me) with
  | Q_SUPER p => Some p
  | _ => None
  end.

(** The strict superstates of [t], innermost first. *)
Fixpoint ancestors (fuel : nat) (me : St) (t : S) : list S :=
  match fuel with
  | O => []
  | Datatypes.S n =>
      match super_of me t with
      | Some p => p :: ancestors n me p
      | None => []
      end
  end.

(** The event goes to the current state's handler and then up the
    hierarchy while handlers answer [Q_SUPER]; the answer comes with the
    state that gave it.  [None]: no state handled the event. *)
Fixpoint bubble (fuel : nat) (s : S) (e : Ev) : M St Eff (option (S * QState S)) :=
  match fuel with
  | O => ret None
  | Datatypes.S n =>
      r <- handler s e ;;
      match r with
      | Q_SUPER p => bubble n p e
      | Q_SUPER_TOP => ret None
      | _ => ret (Some (s, r))
      end
  end.

(** Exit [t] and its superstates in turn until [stop] holds; returns the
    state it stopped at ([None]: left the outermost state). *)
Fixpoint exit_until (fuel : nat) (stop : S -> bool) (t : S) : M St Eff (option S) :=
  match fuel with
  | O => ret None
  | Datatypes.S n =>
      if stop t then ret (Some t)
      else
        _ <- handler t Q_EXIT_SIG ;;
        me <- get ;;
        match super_of me t with
        | Some p => exit_until n stop p
        | None => ret None
        end
  end.

Fixpoint enter_path (path : list S) : M St Eff unit :=
  match path with
  | [] => ret tt
  | t :: rest => _ <- handler t Q_ENTRY_SIG ;; enter_path rest
  end.

Definition mem (t : S) (l : list S) : bool := existsb (S_eqb t) l.

(** The states of [tpath] (target first, then its superstates) that lie
    strictly below [top], outermost first: the entry path. *)
Fixpoint below (top : option S) (tpath : list S) : list S :=
  match tpath with
  | [] => []
  | t :: rest =>
      match top with
      | Some a => if S_eqb t a then [] else below top rest ++ [t]
      | None => below top rest ++ [t]
      end
  end.

(** QHsm_tran_: the transition proper, from the state whose handler
    asked for it to the target.  A transition to self exits and
    re-enters; a source that contains the target is not exited;
    otherwise states are exited up to the least common superstate and
    entered from there down to the target. *)
Definition QHsm_tran (src tgt : S) : M St Eff unit :=
  me <- get ;;
  let tpath := tgt :: ancestors QHSM_MAX_NEST_DEPTH me tgt in
  if S_eqb src tgt then
    _ <- handler src Q_EXIT_SIG ;;
    _ <- handler tgt Q_ENTRY_SIG ;;
    ret tt
  else if mem src tpath then
    enter_path (below (Some src) tpath)
  else
    _ <- handler src Q_EXIT_SIG ;;
    match super_of me src with
    | Some p =>
        lca <- exit_until QHSM_MAX_NEST_DEPTH (fun t => mem t tpath) p ;;
        enter_path (below lca tpath)
    | None => enter_path (below None tpath)
    end.

(** QHsm_dispatch_: run-to-completion processing of one event by the
    machine whose current state is [cur]; returns the new current state.
    On a transition the current state is first exited up to the
    transition source.  None of the handlers of this repository takes an
    initial transition, so the [Q_INIT_SIG] probe of the target ends the
    step. *)
Definition QHsm_dispatch (cur : S) (e : Ev) : M St Eff S :=
  r <- bubble QHSM_MAX_NEST_DEPTH cur e ;;
  match r with
  | Some (src, Q_TRAN tgt) =>
      _ <- exit_until QHSM_MAX_NEST_DEPTH (S_eqb src) cur ;;
      _ <- QHsm_tran src tgt ;;
      _ <- handler tgt Q_INIT_SIG ;;
      ret tgt
  | _ => ret cur
  end.

(** Events processed one after the other, each to completion. *)
Fixpoint run (cur : S) (es : list Ev) : M St Eff S :=
  match es with
  | [] => ret cur
  | e :: rest => s <- QHsm_dispatch cur e ;; run s rest
  end.
End Hsm.

End QP.

(* ================================================================== *)
(** * Types shared by the two active objects                           *)
(* ================================================================== *)

(** An active object is known to others by its address. *)
Definition QActive := Z.

(** Constants of headers that are not part of the sources (common.h,
    whoop_i2c.h) and the slave address the template leaves open: their
    values are parameters of the development. *)
Class constants : Type := {
  DEVICE_LEVEL_SLAVE_ADDRESS : Z;
  i2c_comm_ao : QActive;
  g_ao_device_level : QActive;
  g_ao_api_level : QActive;
  E_WHOOP_NO_ERROR : Z;
  E_NO_ERROR : Z;
  E_TIME_OUT : Z;
  E_WHOOP_DEVICE_LEVEL_BUSY : Z;
  E_WHOOP_DEVICE_LEVEL_I2C_TIMEOUT : Z;
  E_WHOOP_DEVICE_LEVEL_I2C_ERROR : Z;
  E_WHOOP_DEVICE_LEVEL_MISMATCH_RESP_ID : Z;
  E_WHOOP_API_LEVEL_DEVICE_LEVEL_UNAVAILABLE : Z;
  E_WHOOP_API_LEVEL_TIMEOUT : Z;
  E_WHOOP_API_LEVEL_BUSY_TIMEOUT : Z
}.

Inductive whoop_error_severity_t := E_S_WHOOP_WARNING | E_S_WHOOP_ERROR.

Inductive whoop_error_subsys_t := E_WHOOP_SUBSYS_DEVICE_LEVEL | E_WHOOP_SUBSYS_API_LEVEL.

(** The payload of GENERIC_ERROR_REPORT_SIG. *)
Record generic_error_signal_t := {
  error_code : Z;
  ao_name : string;
  error_severity : whoop_error_severity_t;
  error_subsys : whoop_error_subsys_t;
  extra_info : Z
}.

(** I2C bus status as reported by the I2C controller ([i2c_bus_status_t]
    of whoop_i2c.h).  The code names INTERNAL_ONLY_READY and BOTH_READY;
    the other two values are the remaining ones of the controller's
    interface. *)
Inductive i2c_bus_status_t :=
| NONE_READY | INTERNAL_ONLY_READY | EXTERNAL_ONLY_READY | BOTH_READY.

(** [i2c_ops_t]; the request builder has a third branch for any operation
    that is neither a read nor a write. *)
Inductive i2c_ops_t := I2C_READ | I2C_WRITE | I2C_OTHER_OP.

Inductive i2c_bus_id_t := INTERNAL | EXTERNAL.

Inductive i2c_reg_addr_md_t := I2C_USE_REG_ADDR | I2C_NO_REG_ADDR.

(** A data buffer as the handlers use it: register address, data pointer
    and length.  [NULL] is pointer 0. *)
Record buffer_t := {
  address : Z;
  p_data : Z;
  length : Z
}.

Definition NULL : Z := 0.

Record i2c_transaction_data_t := {
  reg_addr_md : i2c_reg_addr_md_t;
  operation : i2c_ops_t;
  nak_expected : bool;
  rec_data : Z;
  rec_data_len : Z;
  send_data : Z;
  send_data_len : Z;
  reg_addr : Z
}.

Record i2c_comm_req_event_t := {
  bus_id : i2c_bus_id_t;
  slave_address : Z;
  transactions : list i2c_transaction_data_t;
  num_transactions : Z
}.

Inductive device_level_req_type_t := DEVICE_LEVEL_READ | DEVICE_LEVEL_WRITE.

(** The payload of DEVICE_LEVEL_RESPONSE_SIG. *)
Record device_level_response_event_t := {
  req_type : device_level_req_type_t;
  buffer : buffer_t
}.

Definition uint8 (z : Z) : Z := z mod 2 ^ 8.
Definition uint32 (z : Z) : Z := z mod 2 ^ 32.

(** Modelled from the spec: the macro
    Q_DOES_REPLYABLE_RESPONSE_REQUEST_ID_MATCH of replyables.h, which is
    not among the sources.  A reply is accepted only when the request id
    it echoes equals the given id. *)
Definition Q_DOES_REPLYABLE_RESPONSE_REQUEST_ID_MATCH (echoed id : Z) : bool :=
  echoed =? id.

(* ================================================================== *)
(** * The device-level active object (device_level.c)                  *)
(* ================================================================== *)

Module Device.
Import QP.
Local Open Scope qp_scope.

Definition DEVICE_LEVEL_NAME : string := "DEVICE_LEVEL".
Definition STARTING_DEBUG_LEVEL : Z := 1.
Definition DEVICE_LEVEL_I2C_ACTIVE_RETRIES : Z := 10.
Definition DEVICE_LEVEL_LOCKUP_TIME_MS : Z := 20.
Definition DEVICE_LEVEL_INIT_LOCKUP_TIME_MS : Z := 500.
Definition DEVICE_LEVEL_BUSY_TIME_MS : Z := 100.

Inductive device_level_status_t :=
| DEVICE_LEVEL_UNKNOWN | DEVICE_LEVEL_DISABLED | DEVICE_LEVEL_ENABLED | DEVICE_LEVEL_FATAL_ERROR.

(** The members of [device_level_t] that the handlers use. *)
Record device_level_t := {
  requestor : QActive;
  device_level_req_id : Z;
  time_event : option Z;
  busy_timer : option Z;
  i2c_transaction_id : Z;
  i2c_operation : i2c_ops_t;
  write_data : buffer_t;
  read_data : buffer_t;
  debug_level : Z;
  status : device_level_status_t;
  last_error : Z;
  last_hal_error : Z
}.

(** The file's static storage: the single object and the retry counter. *)
Record statics := {
  ao_device_level : device_level_t;
  device_level_retry_counter : Z
}.

(** The states, named after their handlers: [Backstop] is
    [device_level_backstop], and so on. *)
Inductive state :=
| Backstop | Disabled | Starting | Enabled | Idle | Busy | Read | Write | Error.

Definition state_eqb (a b : state) : bool :=
  match a, b with
  | Backstop, Backstop | Disabled, Disabled | Starting, Starting
  | Enabled, Enabled | Idle, Idle | Busy, Busy | Read, Read
  | Write, Write | Error, Error => true
  | _, _ => false
  end.

(** Events by signal, each with the payload its handler reads.
    [OTHER_SIG] is any signal the file does not name. *)
Inductive event :=
| Q_EMPTY_SIG | Q_INIT_SIG | Q_ENTRY_SIG | Q_EXIT_SIG
| I2C_BUS_STATUS_SIG (bus_status : i2c_bus_status_t)
| DEVICE_LEVEL_REQ_STAT_SIG
| DEVICE_LEVEL_DISABLE_SIG
| DEVICE_LEVEL_ENABLE_SIG
| DEVICE_LEVEL_WRITE_SIG (from : QActive) (request_id : Z) (buf : buffer_t)
| DEVICE_LEVEL_READ_SIG (from : QActive) (request_id : Z) (buf : buffer_t)
| I2C_COMM_COMPLETE_SIG (echoed_id : Z)
| I2C_COMM_ERROR_SIG (echoed_id : Z) (hal_error_code : Z)
| LOCAL_DEVICE_LEVEL_TIMEOUT_SIG
| LOCAL_DEVICE_LEVEL_BUSY_TIMEOUT_SIG
| LOCAL_DEVICE_LEVEL_ACTION_ENTER_IDLE_SIG
| LOCAL_DEVICE_LEVEL_RETRY_SIG
| LOCAL_DEVICE_LEVEL_I2C_TRANSACTION_START_RW_SIG
| OTHER_SIG (sig : Z).

Inductive status_report := 
| DEVICE_LEVEL_READY_REPORT_SIG | DEVICE_LEVEL_DISABLE_REPORT_SIG | DEVICE_LEVEL_ERROR_REPORT_SIG.

(** The framework calls the handlers make. *)
Inductive effect :=
| QACTIVE_POST_self (e : event)
| QACTIVE_POST_REPLYABLE_REQUEST (to : QActive) (id : Z) (req : i2c_comm_req_event_t)
| QACTIVE_POST_REPLYABLE_RESPONSE (to : QActive) (id : Z) (rsp : device_level_response_event_t)
| QF_PUBLISH_status (sig : status_report)
| QF_PUBLISH_error (err : generic_error_signal_t).

Definition handler_m := M statics effect.

(** ** Assignments to the members of [me] and to the retry counter *)

Definition upd (f : device_level_t -> device_level_t) : handler_m unit :=
  modify (fun m => {| ao_device_level := f (ao_device_level m);
                      device_level_retry_counter := device_level_retry_counter m |}).

Definition me_get {A} (f : device_level_t -> A) : handler_m A :=
  m <- get ;; ret (f (ao_device_level m)).

Definition set_requestor v me :=
  {| requestor := v; device_level_req_id := device_level_req_id me;
     time_event := time_event me; busy_timer := busy_timer me;
     i2c_transaction_id := i2c_transaction_id me; i2c_operation := i2c_operation me;
     write_data := write_data me; read_data := read_data me;
     debug_level := debug_level me; status := status me;
     last_error := last_error me; last_hal_error := last_hal_error me |}.
Definition set_device_level_req_id v me :=
  {| requestor := requestor me; device_level_req_id := v;
     time_event := time_event me; busy_timer := busy_timer me;
     i2c_transaction_id := i2c_transaction_id me; i2c_operation := i2c_operation me;
     write_data := write_data me; read_data := read_data me;
     debug_level := debug_level me; status := status me;
     last_error := last_error me; last_hal_error := last_hal_error me |}.
Definition set_time_event v me :=
  {| requestor := requestor me; device_level_req_id := device_level_req_id me;
     time_event := v; busy_timer := busy_timer me;
     i2c_transaction_id := i2c_transaction_id me; i2c_operation := i2c_operation me;
     write_data := write_data me; read_data := read_data me;
     debug_level := debug_level me; status := status me;
     last_error := last_error me; last_hal_error := last_hal_error me |}.
Definition set_busy_timer v me :=
  {| requestor := requestor me; device_level_req_id := device_level_req_id me;
     time_event := time_event me; busy_timer := v;
     i2c_transaction_id := i2c_transaction_id me; i2c_operation := i2c_operation me;
     write_data := write_data me; read_data := read_data me;
     debug_level := debug_level me; status := status me;
     last_error := last_error me; last_hal_error := last_hal_error me |}.
Definition set_i2c_transaction_id v me :=
  {| requestor := requestor me; device_level_req_id := device_level_req_id me;
     time_event := time_event me; busy_timer := busy_timer me;
     i2c_transaction_id := v; i2c_operation := i2c_operation me;
     write_data := write_data me; read_data := read_data me;
     debug_level := debug_level me; status := status me;
     last_error := last_error me; last_hal_error := last_hal_error me |}.
Definition set_i2c_operation v me :=
  {| requestor := requestor me; device_level_req_id := device_level_req_id me;
     time_event := time_event me; busy_timer := busy_timer me;
     i2c_transaction_id := i2c_transaction_id me; i2c_operation := v;
     write_data := write_data me; read_data := read_data me;
     debug_level := debug_level me; status := status me;
     last_error := last_error me; last_hal_error := last_hal_error me |}.
Definition set_write_data v me :=
  {| requestor := requestor me; device_level_req_id := device_level_req_id me;
     time_event := time_event me; busy_timer := busy_timer me;
     i2c_transaction_id := i2c_transaction_id me; i2c_operation := i2c_operation me;
     write_data := v; read_data := read_data me;
     debug_level := debug_level me; status := status me;
     last_error := last_error me; last_hal_error := last_hal_error me |}.
Definition set_read_data v me :=
  {| requestor := requestor me; device_level_req_id := device_level_req_id me;
     time_event := time_event me; busy_timer := busy_timer me;
     i2c_transaction_id := i2c_transaction_id me; i2c_operation := i2c_operation me;
     write_data := write_data me; read_data := v;
     debug_level := debug_level me; status := status me;
     last_error := last_error me; last_hal_error := last_hal_error me |}.
Definition set_status v me :=
  {| requestor := requestor me; device_level_req_id := device_level_req_id me;
     time_event := time_event me; busy_timer := busy_timer me;
     i2c_transaction_id := i2c_transaction_id me; i2c_operation := i2c_operation me;
     write_data := write_data me; read_data := read_data me;
     debug_level := debug_level me; status := v;
     last_error := last_error me; last_hal_error := last_hal_error me |}.
Definition set_last_error v me :=
  {| requestor := requestor me; device_level_req_id := device_level_req_id me;
     time_event := time_event me; busy_timer := busy_timer me;
     i2c_transaction_id := i2c_transaction_id me; i2c_operation := i2c_operation me;
     write_data := write_data me; read_data := read_data me;
     debug_level := debug_level me; status := status me;
     last_error := v; last_hal_error := last_hal_error me |}.
Definition set_last_hal_error v me :=
  {| requestor := requestor me; device_level_req_id := device_level_req_id me;
     time_event := time_event me; busy_timer := busy_timer me;
     i2c_transaction_id := i2c_transaction_id me; i2c_operation := i2c_operation me;
     write_data := write_data me; read_data := read_data me;
     debug_level := debug_level me; status := status me;
     last_error := last_error me; last_hal_error := v |}.

Definition set_retry_counter (v : Z) : handler_m unit :=
  modify (fun m => {| ao_device_level := ao_device_level m;
                      device_level_retry_counter := v |}).

(** whoop_qp_time_safe_arm(&timer, MS_TO_TICKS(ms), 0) and QTimeEvt_disarm. *)
Definition whoop_qp_time_safe_arm_time_event (ms : Z) := upd (set_time_event (Some ms)).
Definition whoop_qp_time_safe_arm_busy_timer (ms : Z) := upd (set_busy_timer (Some ms)).
Definition QTimeEvt_disarm_time_event := upd (set_time_event None).
Definition QTimeEvt_disarm_busy_timer := upd (set_busy_timer None).

Section Handlers.
Context {K : constants}.

(** The object as [ao_device_level] is initialised, with the counter. *)
Definition initial_statics : statics :=
  {| ao_device_level :=
       {| requestor := 0; device_level_req_id := 0;
          time_event := None; busy_timer := None;
          i2c_transaction_id := 0; i2c_operation := I2C_READ;
          write_data := {| address := 0; p_data := NULL; length := 0 |};
          read_data := {| address := 0; p_data := NULL; length := 0 |};
          debug_level := STARTING_DEBUG_LEVEL;
          status := DEVICE_LEVEL_UNKNOWN;
          last_error := E_WHOOP_NO_ERROR;
          last_hal_error := E_NO_ERROR |};
     device_level_retry_counter := 0 |}.

(** ** Helper functions *)

(** The handlers call [device_level_is_i2c_bus_enabled]; the file defines
    the function under the name below. *)
Definition device_level_func_is_i2c_bus_enabled (st : i2c_bus_status_t) : bool :=
  match st with
  | INTERNAL_ONLY_READY => true
  | BOTH_READY => true
  | _ => false
  end.

Definition device_level_publish_error_response
    (code : Z) (severity : whoop_error_severity_t) : handler_m unit :=
  emit (QF_PUBLISH_error
          {| error_code := code;
             ao_name := DEVICE_LEVEL_NAME;
             error_severity := severity;
             error_subsys := E_WHOOP_SUBSYS_DEVICE_LEVEL;
             extra_info := 0 |}).

Definition device_level_publish_status : handler_m unit :=
  st <- me_get status ;;
  match st with
  | DEVICE_LEVEL_ENABLED => emit (QF_PUBLISH_status DEVICE_LEVEL_READY_REPORT_SIG)
  | DEVICE_LEVEL_DISABLED => emit (QF_PUBLISH_status DEVICE_LEVEL_DISABLE_REPORT_SIG)
  | _ => emit (QF_PUBLISH_status DEVICE_LEVEL_ERROR_REPORT_SIG)
  end.

(** The transaction [device_level_i2c_comm_req] fills in for [me]. *)
Definition transaction_of (me : device_level_t) : i2c_transaction_data_t :=
  match i2c_operation me with
  | I2C_READ =>
      {| reg_addr_md := I2C_USE_REG_ADDR; operation := I2C_READ; nak_expected := false;
         rec_data := p_data (read_data me); rec_data_len := length (read_data me);
         send_data := NULL; send_data_len := 0;
         reg_addr := address (read_data me) |}
  | I2C_WRITE =>
      {| reg_addr_md := I2C_USE_REG_ADDR; operation := I2C_WRITE; nak_expected := false;
         rec_data := NULL; rec_data_len := 0;
         send_data := p_data (write_data me); send_data_len := length (write_data me);
         reg_addr := address (write_data me) |}
  | I2C_OTHER_OP =>
      {| reg_addr_md := I2C_USE_REG_ADDR; operation := I2C_OTHER_OP; nak_expected := false;
         rec_data := p_data (read_data me); rec_data_len := length (read_data me);
         send_data := NULL; send_data_len := 0;
         reg_addr := address (write_data me) |}
  end.

Definition device_level_i2c_comm_req : handler_m unit :=
  (* me->i2c_transaction_id++ on a uint32_t *)
  id <- me_get i2c_transaction_id ;;
  _ <- upd (set_i2c_transaction_id (uint32 (id + 1))) ;;
  me <- me_get (fun me => me) ;;
  emit (QACTIVE_POST_REPLYABLE_REQUEST i2c_comm_ao (i2c_transaction_id me)
          {| bus_id := INTERNAL;
             slave_address := DEVICE_LEVEL_SLAVE_ADDRESS;
             transactions := [transaction_of me];
             num_transactions := 1 |}).

Definition device_level_i2c_write : handler_m unit :=
  _ <- upd (set_i2c_operation I2C_WRITE) ;;
  device_level_i2c_comm_req.

Definition device_level_i2c_read : handler_m unit :=
  _ <- upd (set_i2c_operation I2C_READ) ;;
  device_level_i2c_comm_req.

Definition device_level_try_retry : handler_m bool :=
  m <- get ;;
  if device_level_retry_counter m >=? DEVICE_LEVEL_I2C_ACTIVE_RETRIES then
    ret false
  else
    (* device_level_retry_counter++ on a uint8_t *)
    _ <- set_retry_counter (uint8 (device_level_retry_counter m + 1)) ;;
    _ <- emit (QACTIVE_POST_self LOCAL_DEVICE_LEVEL_RETRY_SIG) ;;
    ret true.

(** ** State handlers *)

Definition device_level_backstop (e : event) : handler_m (QState state) :=
  match e with
  | Q_EMPTY_SIG => ret Q_SUPER_TOP
  | Q_INIT_SIG | Q_ENTRY_SIG | Q_EXIT_SIG => ret Q_HANDLED
  | I2C_BUS_STATUS_SIG st =>
      if negb (device_level_func_is_i2c_bus_enabled st) then
        _ <- upd (set_status DEVICE_LEVEL_DISABLED) ;;
        ret (Q_TRAN Disabled)
      else ret Q_HANDLED
  | DEVICE_LEVEL_REQ_STAT_SIG =>
      _ <- device_level_publish_status ;;
      ret Q_HANDLED
  | DEVICE_LEVEL_DISABLE_SIG =>
      _ <- upd (set_status DEVICE_LEVEL_DISABLED) ;;
      ret (Q_TRAN Disabled)
  | _ => ret Q_SUPER_TOP
  end.

Definition device_level_disabled (e : event) : handler_m (QState state) :=
  match e with
  | Q_ENTRY_SIG =>
      _ <- upd (set_status DEVICE_LEVEL_DISABLED) ;;
      _ <- device_level_publish_status ;;
      ret Q_HANDLED
  | Q_EXIT_SIG => ret Q_HANDLED
  | DEVICE_LEVEL_ENABLE_SIG => ret (Q_TRAN Starting)
  | DEVICE_LEVEL_DISABLE_SIG => ret Q_HANDLED
  | DEVICE_LEVEL_WRITE_SIG _ _ _ | DEVICE_LEVEL_READ_SIG _ _ _ => ret Q_HANDLED
  | _ => ret (Q_SUPER Backstop)
  end.

Definition device_level_starting (e : event) : handler_m (QState state) :=
  match e with
  | Q_ENTRY_SIG =>
      _ <- whoop_qp_time_safe_arm_time_event DEVICE_LEVEL_INIT_LOCKUP_TIME_MS ;;
      _ <- emit (QACTIVE_POST_self LOCAL_DEVICE_LEVEL_ACTION_ENTER_IDLE_SIG) ;;
      ret Q_HANDLED
  | LOCAL_DEVICE_LEVEL_ACTION_ENTER_IDLE_SIG => ret (Q_TRAN Idle)
  | LOCAL_DEVICE_LEVEL_TIMEOUT_SIG =>
      retry_ok <- device_level_try_retry ;;
      if negb retry_ok then ret (Q_TRAN Error) else ret Q_HANDLED
  | DEVICE_LEVEL_ENABLE_SIG => ret Q_HANDLED
  | Q_EXIT_SIG =>
      _ <- QTimeEvt_disarm_time_event ;;
      ret Q_HANDLED
  | _ => ret (Q_SUPER Backstop)
  end.

Definition device_level_enabled (e : event) : handler_m (QState state) :=
  match e with
  | Q_ENTRY_SIG =>
      _ <- upd (set_status DEVICE_LEVEL_ENABLED) ;;
      _ <- device_level_publish_status ;;
      _ <- emit (QACTIVE_POST_self LOCAL_DEVICE_LEVEL_ACTION_ENTER_IDLE_SIG) ;;
      ret Q_HANDLED
  | LOCAL_DEVICE_LEVEL_ACTION_ENTER_IDLE_SIG => ret (Q_TRAN Idle)
  | Q_EXIT_SIG => ret Q_HANDLED
  | DEVICE_LEVEL_ENABLE_SIG => ret Q_HANDLED
  | _ => ret (Q_SUPER Backstop)
  end.

Definition device_level_idle (e : event) : handler_m (QState state) :=
  match e with
  | Q_ENTRY_SIG =>
      _ <- upd (set_status DEVICE_LEVEL_ENABLED) ;;
      _ <- upd (set_i2c_transaction_id 0) ;;
      ret Q_HANDLED
  | Q_EXIT_SIG => ret Q_HANDLED
  | DEVICE_LEVEL_WRITE_SIG from request_id buf =>
      _ <- upd (set_i2c_operation I2C_WRITE) ;;
      _ <- upd (set_device_level_req_id request_id) ;;
      _ <- upd (set_requestor from) ;;
      _ <- upd (set_write_data buf) ;;
      ret (Q_TRAN Write)
  | DEVICE_LEVEL_READ_SIG from request_id buf =>
      _ <- upd (set_i2c_operation I2C_READ) ;;
      _ <- upd (set_device_level_req_id request_id) ;;
      _ <- upd (set_requestor from) ;;
      _ <- upd (set_read_data buf) ;;
      ret (Q_TRAN Read)
  | _ => ret (Q_SUPER Enabled)
  end.

(** The timeout branch shared, text for text, by the busy-timer case of
    [device_level_busy] and the lockup-timer cases of [device_level_read]
    and [device_level_write]. *)
Definition timeout_case : handler_m (QState state) :=
  retry_ok <- device_level_try_retry ;;
  if negb retry_ok then
    _ <- device_level_publish_error_response E_WHOOP_DEVICE_LEVEL_I2C_TIMEOUT E_S_WHOOP_ERROR ;;
    _ <- upd (set_last_error E_WHOOP_DEVICE_LEVEL_I2C_TIMEOUT) ;;
    _ <- upd (set_last_hal_error E_TIME_OUT) ;;
    ret (Q_TRAN Idle)
  else ret Q_HANDLED.

Definition device_level_busy (e : event) : handler_m (QState state) :=
  match e with
  | Q_ENTRY_SIG =>
      _ <- whoop_qp_time_safe_arm_busy_timer DEVICE_LEVEL_BUSY_TIME_MS ;;
      ret Q_HANDLED
  | Q_EXIT_SIG =>
      _ <- QTimeEvt_disarm_busy_timer ;;
      ret Q_HANDLED
  | DEVICE_LEVEL_WRITE_SIG _ _ _ | DEVICE_LEVEL_READ_SIG _ _ _ =>
      _ <- device_level_publish_error_response E_WHOOP_DEVICE_LEVEL_BUSY E_S_WHOOP_WARNING ;;
      _ <- upd (set_last_error E_WHOOP_DEVICE_LEVEL_BUSY) ;;
      ret Q_HANDLED
  | LOCAL_DEVICE_LEVEL_BUSY_TIMEOUT_SIG => timeout_case
  | _ => ret (Q_SUPER Enabled)
  end.

(** The mismatch branch shared by the completion and error cases of
    [device_level_read] and [device_level_write]. *)
Definition mismatch_case : handler_m (QState state) :=
  _ <- device_level_publish_error_response E_WHOOP_DEVICE_LEVEL_MISMATCH_RESP_ID E_S_WHOOP_WARNING ;;
  _ <- upd (set_last_error E_WHOOP_DEVICE_LEVEL_MISMATCH_RESP_ID) ;;
  ret Q_HANDLED.

(** The error-reply case, the same in [device_level_read] and
    [device_level_write]. *)
Definition comm_error_case (echoed_id hal_error_code : Z) : handler_m (QState state) :=
  id <- me_get i2c_transaction_id ;;
  if Q_DOES_REPLYABLE_RESPONSE_REQUEST_ID_MATCH echoed_id id then
    _ <- QTimeEvt_disarm_time_event ;;
    _ <- device_level_publish_error_response hal_error_code E_S_WHOOP_ERROR ;;
    _ <- upd (set_last_error E_WHOOP_DEVICE_LEVEL_I2C_ERROR) ;;
    _ <- upd (set_last_hal_error hal_error_code) ;;
    ret (Q_TRAN Error)
  else mismatch_case.

Definition device_level_read (e : event) : handler_m (QState state) :=
  match e with
  | Q_ENTRY_SIG =>
      _ <- whoop_qp_time_safe_arm_time_event DEVICE_LEVEL_LOCKUP_TIME_MS ;;
      _ <- emit (QACTIVE_POST_self LOCAL_DEVICE_LEVEL_I2C_TRANSACTION_START_RW_SIG) ;;
      ret Q_HANDLED
  | Q_EXIT_SIG =>
      _ <- QTimeEvt_disarm_time_event ;;
      ret Q_HANDLED
  | LOCAL_DEVICE_LEVEL_I2C_TRANSACTION_START_RW_SIG =>
      _ <- device_level_i2c_read ;;
      ret Q_HANDLED
  | I2C_COMM_COMPLETE_SIG echoed_id =>
      id <- me_get i2c_transaction_id ;;
      if Q_DOES_REPLYABLE_RESPONSE_REQUEST_ID_MATCH echoed_id id then
        _ <- QTimeEvt_disarm_time_event ;;
        me <- me_get (fun me => me) ;;
        _ <- emit (QACTIVE_POST_REPLYABLE_RESPONSE (requestor me) (device_level_req_id me)
                     {| req_type := DEVICE_LEVEL_READ; buffer := read_data me |}) ;;
        ret (Q_TRAN Idle)
      else mismatch_case
  | I2C_COMM_ERROR_SIG echoed_id hal_error_code => comm_error_case echoed_id hal_error_code
  | LOCAL_DEVICE_LEVEL_TIMEOUT_SIG => timeout_case
  | _ => ret (Q_SUPER Busy)
  end.

Definition device_level_write (e : event) : handler_m (QState state) :=
  match e with
  | Q_ENTRY_SIG =>
      _ <- whoop_qp_time_safe_arm_time_event DEVICE_LEVEL_LOCKUP_TIME_MS ;;
      _ <- emit (QACTIVE_POST_self LOCAL_DEVICE_LEVEL_I2C_TRANSACTION_START_RW_SIG) ;;
      ret Q_HANDLED
  | Q_EXIT_SIG =>
      _ <- QTimeEvt_disarm_time_event ;;
      ret Q_HANDLED
  | LOCAL_DEVICE_LEVEL_I2C_TRANSACTION_START_RW_SIG =>
      _ <- upd (set_i2c_operation I2C_WRITE) ;;
      _ <- device_level_i2c_write ;;
      ret Q_HANDLED
  | I2C_COMM_COMPLETE_SIG echoed_id =>
      id <- me_get i2c_transaction_id ;;
      if Q_DOES_REPLYABLE_RESPONSE_REQUEST_ID_MATCH echoed_id id then
        _ <- QTimeEvt_disarm_time_event ;;
        me <- me_get (fun me => me) ;;
        _ <- emit (QACTIVE_POST_REPLYABLE_RESPONSE (requestor me) (device_level_req_id me)
                     {| req_type := DEVICE_LEVEL_WRITE; buffer := write_data me |}) ;;
        ret (Q_TRAN Idle)
      else mismatch_case
  | I2C_COMM_ERROR_SIG echoed_id hal_error_code => comm_error_case echoed_id hal_error_code
  | LOCAL_DEVICE_LEVEL_TIMEOUT_SIG => timeout_case
  | _ => ret (Q_SUPER Busy)
  end.

Definition device_level_error (e : event) : handler_m (QState state) :=
  match e with
  | Q_ENTRY_SIG =>
      _ <- upd (set_status DEVICE_LEVEL_FATAL_ERROR) ;;
      _ <- device_level_publish_status ;;
      ret Q_HANDLED
  | Q_EXIT_SIG => ret Q_HANDLED
  | DEVICE_LEVEL_ENABLE_SIG => ret (Q_TRAN Starting)
  | DEVICE_LEVEL_DISABLE_SIG => ret (Q_TRAN Disabled)
  | _ => ret (Q_SUPER Backstop)
  end.

(** The handler of each state. *)
Definition handler (s : state) : event -> handler_m (QState state) :=
  match s with
  | Backstop => device_level_backstop
  | Disabled => device_level_disabled
  | Starting => device_level_starting
  | Enabled => device_level_enabled
  | Idle => device_level_idle
  | Busy => device_level_busy
  | Read => device_level_read
  | Write => device_level_write
  | Error => device_level_error
  end.

(** One event processed to completion, and a run of events. *)
Definition dispatch (cur : state) (e : event) : handler_m state :=
  QHsm_dispatch handler Q_EMPTY_SIG Q_INIT_SIG Q_ENTRY_SIG Q_EXIT_SIG state_eqb cur e.

Definition run_events (cur : state) (es : list event) : handler_m state :=
  run handler Q_EMPTY_SIG Q_INIT_SIG Q_ENTRY_SIG Q_EXIT_SIG state_eqb cur es.

(** [device_level_initial]: subscribe, mark disabled, go to Disabled. *)
Definition device_level_initial : handler_m state :=
  _ <- upd (set_status DEVICE_LEVEL_DISABLED) ;;
  _ <- handler Disabled Q_ENTRY_SIG ;;
  ret Disabled.

End Handlers.

(** ** Accessors *)

(** The values of the status enumerators (device_level.h). *)
Definition status_value (st : device_level_status_t) : Z :=
  match st with
  | DEVICE_LEVEL_UNKNOWN => 0
  | DEVICE_LEVEL_DISABLED => 1
  | DEVICE_LEVEL_ENABLED => 2
  | DEVICE_LEVEL_FATAL_ERROR => 3
  end.

(** [device_level_get_status] is defined with return type [bool]: the
    status converts to [true] unless its value is 0. *)
Definition device_level_get_status (m : statics) : bool :=
  negb (status_value (status (ao_device_level m)) =? 0).

Definition device_level_get_write_address (m : statics) : Z :=
  address (write_data (ao_device_level m)).

Definition device_level_get_write_data (m : statics) : Z :=
  p_data (write_data (ao_device_level m)).

Definition device_level_get_read_address (m : statics) : Z :=
  address (read_data (ao_device_level m)).

Definition device_level_get_read_data (m : statics) : Z :=
  p_data (read_data (ao_device_level m)).

Definition device_level_get_last_hal_error (m : statics) : Z :=
  last_hal_error (ao_device_level m).

Definition device_level_get_last_error (m : statics) : Z :=
  last_error (ao_device_level m).

End Device.

(* ================================================================== *)
(** * The API-level active object (api_level.c)                        *)
(* ================================================================== *)

Module Api.
Import QP.
Local Open Scope qp_scope.

Definition API_LEVEL_NAME : string := "API_LEVEL".
Definition STARTING_DEBUG_LEVEL : Z := 1.
Definition API_LEVEL_INIT_LOCKUP_TIME_MS : Z := 1000.
Definition API_LEVEL_LOCKUP_TIME_MS : Z := 250.

Inductive api_level_status_t :=
| API_LEVEL_UNKNOWN | API_LEVEL_DISABLED | API_LEVEL_ENABLED | API_LEVEL_FATAL_ERROR.

Inductive state :=
| Backstop | Disabled | Starting | Enabled | Idle | Busy | Error.

Definition state_eqb (a b : state) : bool :=
  match a, b with
  | Backstop, Backstop | Disabled, Disabled | Starting, Starting
  | Enabled, Enabled | Idle, Idle | Busy, Busy | Error, Error => true
  | _, _ => false
  end.

(** Events by signal.  The file names no client request signal and has no
    case for the device's DEVICE_LEVEL_RESPONSE_SIG: a client request is
    an [OTHER_SIG], a replyable request with its sender and request id. *)
Inductive event :=
| Q_EMPTY_SIG | Q_INIT_SIG | Q_ENTRY_SIG | Q_EXIT_SIG
| DEBUG_LEVEL_SIG (new_debug_level : Z)
| API_LEVEL_REQ_STATUS_SIG
| API_LEVEL_DISABLE_SIG
| API_LEVEL_ENABLE_SIG
| DEVICE_LEVEL_READY_REPORT_SIG
| DEVICE_LEVEL_DISABLE_REPORT_SIG
| DEVICE_LEVEL_ERROR_REPORT_SIG
| DEVICE_LEVEL_RESPONSE_SIG (echoed_id : Z) (rsp : device_level_response_event_t)
| LOCAL_API_LEVEL_TIMEOUT_SIG
| LOCAL_API_LEVEL_BUSY_TIMEOUT_SIG
| LOCAL_API_LEVEL_START_INIT_SIG
| LOCAL_API_LEVEL_RETRY_SIG
| OTHER_SIG (sig : Z) (from : QActive) (request_id : Z).

(** The members of [api_level_t] that the handlers use; [last_error] is
    assigned by the handlers.  The deferred queue holds events, oldest
    first. *)
Record api_level_t := {
  requestor : QActive;
  request_id : Z;
  deferred_event_queue : list event;
  time_event : option Z;
  busy_event : option Z;
  status : api_level_status_t;
  debug_level : Z;
  last_error : Z
}.

(** The file's static storage: the object and the debug level. *)
Record statics := {
  ao_api_level : api_level_t;
  api_level_debug_level : Z
}.

Inductive status_report :=
| API_LEVEL_READY_REPORT_SIG | API_LEVEL_DISABLE_REPORT_SIG | API_LEVEL_ERROR_REPORT_SIG.

Inductive device_command := DEVICE_LEVEL_ENABLE_SIG | DEVICE_LEVEL_DISABLE_SIG.

(** The framework and library calls the handlers make. *)
Inductive effect :=
| ao_timings_init
| ao_set_idle
| ao_set_busy
| QActive_subscribe (e : event)
| QActive_unsubscribe (e : event)
| QACTIVE_POST_self (e : event)
| QACTIVE_POST_device (c : device_command)
| QF_PUBLISH_status (sig : status_report)
| QF_PUBLISH_error (err : generic_error_signal_t).

Definition handler_m := M statics effect.

Definition upd (f : api_level_t -> api_level_t) : handler_m unit :=
  modify (fun m => {| ao_api_level := f (ao_api_level m);
                      api_level_debug_level := api_level_debug_level m |}).

Definition me_get {A} (f : api_level_t -> A) : handler_m A :=
  m <- get ;; ret (f (ao_api_level m)).

Definition set_time_event v me :=
  {| requestor := requestor me; request_id := request_id me;
     deferred_event_queue := deferred_event_queue me;
     time_event := v; busy_event := busy_event me; status := status me;
     debug_level := debug_level me; last_error := last_error me |}.
Definition set_busy_event v me :=
  {| requestor := requestor me; request_id := request_id me;
     deferred_event_queue := deferred_event_queue me;
     time_event := time_event me; busy_event := v; status := status me;
     debug_level := debug_level me; last_error := last_error me |}.
Definition set_status v me :=
  {| requestor := requestor me; request_id := request_id me;
     deferred_event_queue := deferred_event_queue me;
     time_event := time_event me; busy_event := busy_event me; status := v;
     debug_level := debug_level me; last_error := last_error me |}.
Definition set_debug_level v me :=
  {| requestor := requestor me; request_id := request_id me;
     deferred_event_queue := deferred_event_queue me;
     time_event := time_event me; busy_event := busy_event me; status := status me;
     debug_level := v; last_error := last_error me |}.
Definition set_last_error v me :=
  {| requestor := requestor me; request_id := request_id me;
     deferred_event_queue := deferred_event_queue me;
     time_event := time_event me; busy_event := busy_event me; status := status me;
     debug_level := debug_level me; last_error := v |}.

Definition set_api_level_debug_level (v : Z) : handler_m unit :=
  modify (fun m => {| ao_api_level := ao_api_level m; api_level_debug_level := v |}).

Section Handlers.
Context {K : constants}.

Definition api_level_error_response
    (code : Z) (severity : whoop_error_severity_t) : handler_m unit :=
  emit (QF_PUBLISH_error
          {| error_code := code;
             ao_name := API_LEVEL_NAME;
             error_severity := severity;
             error_subsys := E_WHOOP_SUBSYS_API_LEVEL;
             extra_info := 0 |}).

Definition api_level_publish_status : handler_m unit :=
  st <- me_get status ;;
  match st with
  | API_LEVEL_ENABLED => emit (QF_PUBLISH_status API_LEVEL_READY_REPORT_SIG)
  | API_LEVEL_DISABLED => emit (QF_PUBLISH_status API_LEVEL_DISABLE_REPORT_SIG)
  | _ => emit (QF_PUBLISH_status API_LEVEL_ERROR_REPORT_SIG)
  end.

(** [API_LEVEL_REQ_STATUS_SIG] publishes the status and leaves the handler
    with the result it started with, [Q_SUPER(&QHsm_top)].  The debug
    level case stores the new level; its assignment to the object is
    taken as an assignment to the object's [debug_level]. *)
Definition api_level_backstop (e : event) : handler_m (QState state) :=
  match e with
  | Q_EMPTY_SIG => ret Q_SUPER_TOP
  | Q_INIT_SIG | Q_ENTRY_SIG | Q_EXIT_SIG => ret Q_HANDLED
  | DEBUG_LEVEL_SIG new_debug_level =>
      _ <- set_api_level_debug_level new_debug_level ;;
      _ <- upd (set_debug_level new_debug_level) ;;
      ret Q_HANDLED
  | API_LEVEL_REQ_STATUS_SIG =>
      _ <- api_level_publish_status ;;
      ret Q_SUPER_TOP
  | API_LEVEL_DISABLE_SIG =>
      _ <- upd (set_status API_LEVEL_DISABLED) ;;
      _ <- emit (QACTIVE_POST_device DEVICE_LEVEL_DISABLE_SIG) ;;
      ret (Q_TRAN Disabled)
  | DEVICE_LEVEL_ERROR_REPORT_SIG =>
      _ <- upd (set_status API_LEVEL_FATAL_ERROR) ;;
      _ <- upd (set_last_error E_WHOOP_API_LEVEL_DEVICE_LEVEL_UNAVAILABLE) ;;
      _ <- api_level_error_response E_WHOOP_API_LEVEL_DEVICE_LEVEL_UNAVAILABLE E_S_WHOOP_ERROR ;;
      ret (Q_TRAN Error)
  | _ => ret Q_SUPER_TOP
  end.

Definition api_level_disabled (e : event) : handler_m (QState state) :=
  match e with
  | Q_ENTRY_SIG =>
      _ <- emit ao_set_idle ;;
      _ <- upd (set_status API_LEVEL_DISABLED) ;;
      _ <- api_level_publish_status ;;
      ret Q_HANDLED
  | Q_EXIT_SIG => ret Q_HANDLED
  | API_LEVEL_ENABLE_SIG => ret (Q_TRAN Starting)
  | API_LEVEL_DISABLE_SIG => ret Q_HANDLED
  | _ => ret (Q_SUPER Backstop)
  end.

Definition api_level_starting (e : event) : handler_m (QState state) :=
  match e with
  | Q_ENTRY_SIG =>
      _ <- emit ao_set_busy ;;
      _ <- emit (QActive_subscribe DEVICE_LEVEL_READY_REPORT_SIG) ;;
      _ <- emit (QACTIVE_POST_self LOCAL_API_LEVEL_START_INIT_SIG) ;;
      ret Q_HANDLED
  | LOCAL_API_LEVEL_RETRY_SIG | LOCAL_API_LEVEL_START_INIT_SIG =>
      _ <- upd (set_time_event (Some API_LEVEL_INIT_LOCKUP_TIME_MS)) ;;
      _ <- emit (QACTIVE_POST_device DEVICE_LEVEL_ENABLE_SIG) ;;
      ret Q_HANDLED
  | DEVICE_LEVEL_READY_REPORT_SIG =>
      _ <- emit (QActive_unsubscribe DEVICE_LEVEL_READY_REPORT_SIG) ;;
      ret (Q_TRAN Idle)
  | DEVICE_LEVEL_ERROR_REPORT_SIG =>
      _ <- api_level_error_response E_WHOOP_API_LEVEL_DEVICE_LEVEL_UNAVAILABLE E_S_WHOOP_ERROR ;;
      _ <- upd (set_status API_LEVEL_FATAL_ERROR) ;;
      _ <- upd (set_last_error E_WHOOP_API_LEVEL_DEVICE_LEVEL_UNAVAILABLE) ;;
      ret (Q_TRAN Error)
  | LOCAL_API_LEVEL_TIMEOUT_SIG =>
      _ <- api_level_error_response E_WHOOP_API_LEVEL_TIMEOUT E_S_WHOOP_ERROR ;;
      _ <- upd (set_status API_LEVEL_FATAL_ERROR) ;;
      _ <- upd (set_last_error E_WHOOP_API_LEVEL_TIMEOUT) ;;
      ret (Q_TRAN Error)
  | API_LEVEL_ENABLE_SIG => ret Q_HANDLED
  | Q_EXIT_SIG =>
      _ <- upd (set_time_event None) ;;
      ret Q_HANDLED
  | _ => ret (Q_SUPER Backstop)
  end.

Definition api_level_enabled (e : event) : handler_m (QState state) :=
  match e with
  | Q_ENTRY_SIG =>
      _ <- upd (set_time_event None) ;;
      _ <- upd (set_status API_LEVEL_ENABLED) ;;
      _ <- api_level_publish_status ;;
      ret Q_HANDLED
  | Q_EXIT_SIG => ret Q_HANDLED
  | API_LEVEL_ENABLE_SIG => ret Q_HANDLED
  | API_LEVEL_DISABLE_SIG =>
      _ <- upd (set_status API_LEVEL_DISABLED) ;;
      ret (Q_TRAN Disabled)
  | _ => ret (Q_SUPER Backstop)
  end.

Definition api_level_idle (e : event) : handler_m (QState state) :=
  match e with
  | Q_ENTRY_SIG =>
      _ <- emit ao_set_idle ;;
      _ <- upd (set_status API_LEVEL_ENABLED) ;;
      ret Q_HANDLED
  | Q_EXIT_SIG => ret Q_HANDLED
  | _ => ret (Q_SUPER Enabled)
  end.

(** Between the exit case and the busy-timeout case the file has only a
    comment: the call of QActive_defer and the queue-full branch are
    commented out. *)
Definition api_level_busy (e : event) : handler_m (QState state) :=
  match e with
  | Q_ENTRY_SIG =>
      _ <- emit ao_set_busy ;;
      _ <- upd (set_busy_event (Some API_LEVEL_LOCKUP_TIME_MS)) ;;
      ret Q_HANDLED
  | Q_EXIT_SIG =>
      _ <- upd (set_busy_event None) ;;
      ret Q_HANDLED
  | LOCAL_API_LEVEL_BUSY_TIMEOUT_SIG =>
      _ <- api_level_error_response E_WHOOP_API_LEVEL_BUSY_TIMEOUT E_S_WHOOP_ERROR ;;
      _ <- upd (set_last_error E_WHOOP_API_LEVEL_BUSY_TIMEOUT) ;;
      ret (Q_TRAN Idle)
  | _ => ret (Q_SUPER Enabled)
  end.

Definition api_level_error (e : event) : handler_m (QState state) :=
  match e with
  | Q_ENTRY_SIG =>
      _ <- emit ao_set_idle ;;
      _ <- upd (set_status API_LEVEL_FATAL_ERROR) ;;
      _ <- api_level_publish_status ;;
      ret Q_HANDLED
  | Q_EXIT_SIG => ret Q_HANDLED
  | API_LEVEL_ENABLE_SIG => ret (Q_TRAN Starting)
  | API_LEVEL_DISABLE_SIG => ret (Q_TRAN Disabled)
  | _ => ret (Q_SUPER Backstop)
  end.

Definition handler (s : state) : event -> handler_m (QState state) :=
  match s with
  | Backstop => api_level_backstop
  | Disabled => api_level_disabled
  | Starting => api_level_starting
  | Enabled => api_level_enabled
  | Idle => api_level_idle
  | Busy => api_level_busy
  | Error => api_level_error
  end.

Definition dispatch (cur : state) (e : event) : handler_m state :=
  QHsm_dispatch handler Q_EMPTY_SIG Q_INIT_SIG Q_ENTRY_SIG Q_EXIT_SIG state_eqb cur e.

Definition run_events (cur : state) (es : list event) : handler_m state :=
  run handler Q_EMPTY_SIG Q_INIT_SIG Q_ENTRY_SIG Q_EXIT_SIG state_eqb cur es.

(** The object as [ao_api_level] is initialised, with the debug level. *)
Definition initial_statics : statics :=
  {| ao_api_level :=
       {| requestor := 0; request_id := 0;
          deferred_event_queue := [];
          time_event := None; busy_event := None;
          status := API_LEVEL_UNKNOWN;
          debug_level := STARTING_DEBUG_LEVEL;
          last_error := E_WHOOP_NO_ERROR |};
     api_level_debug_level := STARTING_DEBUG_LEVEL |}.

(** [api_level_initial]: subscribe to the device's three reports, mark
    disabled, initialise the timings, go to Disabled. *)
Definition api_level_initial : handler_m state :=
  _ <- emit (QActive_subscribe DEVICE_LEVEL_DISABLE_REPORT_SIG) ;;
  _ <- emit (QActive_subscribe DEVICE_LEVEL_READY_REPORT_SIG) ;;
  _ <- emit (QActive_subscribe DEVICE_LEVEL_ERROR_REPORT_SIG) ;;
  _ <- upd (set_status API_LEVEL_DISABLED) ;;
  _ <- emit ao_timings_init ;;
  _ <- handler Disabled Q_ENTRY_SIG ;;
  ret Disabled.

End Handlers.

(** ** Accessors *)

(** The values of the status enumerators (api_level.h). *)
Definition status_value (st : api_level_status_t) : Z :=
  match st with
  | API_LEVEL_UNKNOWN => 0
  | API_LEVEL_DISABLED => 1
  | API_LEVEL_ENABLED => 2
  | API_LEVEL_FATAL_ERROR => 3
  end.

(** [api_level_get_status] is defined with return type [bool]. *)
Definition api_level_get_status (m : statics) : bool :=
  negb (status_value (status (ao_api_level m)) =? 0).

Definition api_level_get_last_error (m : statics) : Z :=
  last_error (ao_api_level m).

End Api.

(* ================================================================== *)
(** * Vocabulary of the properties                                     *)
(* ================================================================== *)

(** Values for the constants the sources leave open, to evaluate the
    handlers on concrete inputs.  No result depends on the choice. *)
Definition sample_constants : constants :=
  {| DEVICE_LEVEL_SLAVE_ADDRESS := 72;
     i2c_comm_ao := 100;
     g_ao_device_level := 101;
     g_ao_api_level := 102;
     E_WHOOP_NO_ERROR := 0;
     E_NO_ERROR := 0;
     E_TIME_OUT := -7;
     E_WHOOP_DEVICE_LEVEL_BUSY := 1;
     E_WHOOP_DEVICE_LEVEL_I2C_TIMEOUT := 2;
     E_WHOOP_DEVICE_LEVEL_I2C_ERROR := 3;
     E_WHOOP_DEVICE_LEVEL_MISMATCH_RESP_ID := 4;
     E_WHOOP_API_LEVEL_DEVICE_LEVEL_UNAVAILABLE := 5;
     E_WHOOP_API_LEVEL_TIMEOUT := 6;
     E_WHOOP_API_LEVEL_BUSY_TIMEOUT := 7 |}.

(** A two-byte buffer at register 0x10. *)
Definition sample_buffer : buffer_t := {| address := 16; p_data := 4096; length := 2 |}.

(** The device object in the middle of a read for requester 7, whose
    request had id 42; the transaction in flight has id 1. *)
Definition sample_in_flight : Device.statics :=
  {| Device.ao_device_level :=
       {| Device.requestor := 7; Device.device_level_req_id := 42;
          Device.time_event := Some Device.DEVICE_LEVEL_LOCKUP_TIME_MS;
          Device.busy_timer := Some Device.DEVICE_LEVEL_BUSY_TIME_MS;
          Device.i2c_transaction_id := 1; Device.i2c_operation := I2C_READ;
          Device.write_data := {| address := 0; p_data := NULL; length := 0 |};
          Device.read_data := sample_buffer;
          Device.debug_level := 1; Device.status := Device.DEVICE_LEVEL_ENABLED;
          Device.last_error := 0; Device.last_hal_error := 0 |};
     Device.device_level_retry_counter := 0 |}.

(** The events that bring the device from Disabled to that point, in the
    order its queue delivers them: the enable request, the two
    enter-idle actions posted by the entries of Starting and Enabled, the
    read request and the start action posted by the entry of Read. *)
Definition enable_and_read : list Device.event :=
  [Device.DEVICE_LEVEL_ENABLE_SIG;
   Device.LOCAL_DEVICE_LEVEL_ACTION_ENTER_IDLE_SIG;
   Device.LOCAL_DEVICE_LEVEL_ACTION_ENTER_IDLE_SIG;
   Device.DEVICE_LEVEL_READ_SIG 7 42 sample_buffer;
   Device.LOCAL_DEVICE_LEVEL_I2C_TRANSACTION_START_RW_SIG].

(** The object after [device_level_initial]. *)
Definition booted {K : constants} : Device.statics :=
  QP.object (Device.device_level_initial Device.initial_statics).

(** The same with the retries used up. *)
Definition sample_exhausted : Device.statics :=
  {| Device.ao_device_level := Device.ao_device_level sample_in_flight;
     Device.device_level_retry_counter := 10 |}.

(** An API object with nothing deferred. *)
Definition sample_api : Api.statics :=
  {| Api.ao_api_level :=
       {| Api.requestor := 0; Api.request_id := 0;
          Api.deferred_event_queue := [];
          Api.time_event := None; Api.busy_event := Some Api.API_LEVEL_LOCKUP_TIME_MS;
          Api.status := Api.API_LEVEL_ENABLED;
          Api.debug_level := 1; Api.last_error := 0 |};
     Api.api_level_debug_level := 1 |}.

(** Two operations one after the other: the read above with the
    controller's completion for id 1, then a write request and its start
    action. *)
Definition two_operations : list Device.event :=
  enable_and_read ++
  [Device.I2C_COMM_COMPLETE_SIG 1;
   Device.DEVICE_LEVEL_WRITE_SIG 7 43 sample_buffer;
   Device.LOCAL_DEVICE_LEVEL_I2C_TRANSACTION_START_RW_SIG].

(** The object with [f] applied to [ao_device_level]. *)
Definition with_me (f : Device.device_level_t -> Device.device_level_t)
    (m : Device.statics) : Device.statics :=
  {| Device.ao_device_level := f (Device.ao_device_level m);
     Device.device_level_retry_counter := Device.device_level_retry_counter m |}.

Definition with_retry_counter (v : Z) (m : Device.statics) : Device.statics :=
  {| Device.ao_device_level := Device.ao_device_level m;
     Device.device_level_retry_counter := v |}.

Section DeviceVocabulary.
Context {K : constants}.
Import Device.

(** The error report the device publishes for [code]. *)
Definition device_error_report (code : Z) (severity : whoop_error_severity_t) : effect :=
  QF_PUBLISH_error
    {| error_code := code; ao_name := DEVICE_LEVEL_NAME;
       error_severity := severity; error_subsys := E_WHOOP_SUBSYS_DEVICE_LEVEL;
       extra_info := 0 |}.

(** What the object is after the machine left Read or Write for Idle:
    both timers disarmed, status enabled, transaction id cleared. *)
Definition back_in_idle (me : device_level_t) : device_level_t :=
  set_i2c_transaction_id 0
    (set_status DEVICE_LEVEL_ENABLED
       (set_busy_timer None (set_time_event None me))).

(** What the object is after the machine left Read or Write for Error. *)
Definition in_error (hal_error_code : Z) (me : device_level_t) : device_level_t :=
  set_status DEVICE_LEVEL_FATAL_ERROR
    (set_busy_timer None
       (set_last_hal_error hal_error_code
          (set_last_error E_WHOOP_DEVICE_LEVEL_I2C_ERROR
             (set_time_event None me)))).

End DeviceVocabulary.

(** The ids of the I2C requests among the calls made, in order. *)
Definition i2c_request_ids (l : list Device.effect) : list Z :=
  flat_map (fun x => match x with
                     | Device.QACTIVE_POST_REPLYABLE_REQUEST _ id _ => [id]
                     | _ => []
                     end) l.

(** Is the call a post to the active object [a]?  Publishing addresses
    no one. *)
Definition posted_to {K : constants} (a : QActive) (x : Device.effect) : bool :=
  match x with
  | Device.QACTIVE_POST_self _ => g_ao_device_level =? a
  | Device.QACTIVE_POST_REPLYABLE_REQUEST to _ _ => to =? a
  | Device.QACTIVE_POST_REPLYABLE_RESPONSE to _ _ => to =? a
  | Device.QF_PUBLISH_status _ => false
  | Device.QF_PUBLISH_error _ => false
  end.

(** Starting from transaction id [id], the requests [l] were tagged as
    the code tags them and the id ended as [id']: each tag is the id
    before it plus one on 32 bits, or 1 when the id was reset in between. *)
Fixpoint ids_follow (id : Z) (l : list Z) (id' : Z) : Prop :=
  match l with
  | [] => id' = id \/ id' = 0
  | x :: rest => (x = uint32 (id + 1) \/ x = 1) /\ ids_follow x rest id'
  end.

(** [n] calls of [device_level_try_retry] in a row, with their results. *)
Fixpoint try_retry_times {K : constants} (n : nat) : Device.handler_m (list bool) :=
  match n with
  | O => QP.ret []
  | S k => QP.bind Device.device_level_try_retry
             (fun b => QP.bind (try_retry_times k) (fun bs => QP.ret (b :: bs)))
  end.

(** The two timers of each object. *)
Inductive device_timer := Device_time_event | Device_busy_timer.
Inductive api_timer := Api_time_event | Api_busy_event.

Definition device_timer_of (t : device_timer) (m : Device.statics) : option Z :=
  match t with
  | Device_time_event => Device.time_event (Device.ao_device_level m)
  | Device_busy_timer => Device.busy_timer (Device.ao_device_level m)
  end.

Definition api_timer_of (t : api_timer) (m : Api.statics) : option Z :=
  match t with
  | Api_time_event => Api.time_event (Api.ao_api_level m)
  | Api_busy_event => Api.busy_event (Api.ao_api_level m)
  end.

(** An armed timer belongs to a state the machine is in: the lockup timer
    to Starting, Read or Write, the busy timer to Busy and its substates. *)
Definition device_timers_owned (s : Device.state) (m : Device.statics) : Prop :=
  (device_timer_of Device_time_event m <> None ->
     s = Device.Starting \/ s = Device.Read \/ s = Device.Write) /\
  (device_timer_of Device_busy_timer m <> None ->
     s = Device.Busy \/ s = Device.Read \/ s = Device.Write).

Definition api_timers_owned (s : Api.state) (m : Api.statics) : Prop :=
  (api_timer_of Api_time_event m <> None -> s = Api.Starting) /\
  (api_timer_of Api_busy_event m <> None -> s = Api.Busy).

(** ** The API object from start-up, and with events in its queue *)

(** The API object after [api_level_initial]. *)
Definition api_booted {K : constants} : Api.statics :=
  QP.object (Api.api_level_initial Api.initial_statics).







(** ** Further vocabulary: what the machines keep and what they send *)

(** The object with [f] applied to [ao_api_level]. *)
Definition with_api (f : Api.api_level_t -> Api.api_level_t)
    (m : Api.statics) : Api.statics :=
  {| Api.ao_api_level := f (Api.ao_api_level m);
     Api.api_level_debug_level := Api.api_level_debug_level m |}.

(** The report [device_level_publish_status] publishes for a status. *)
Definition device_report_of (st : Device.device_level_status_t) : Device.status_report :=
  match st with
  | Device.DEVICE_LEVEL_ENABLED => Device.DEVICE_LEVEL_READY_REPORT_SIG
  | Device.DEVICE_LEVEL_DISABLED => Device.DEVICE_LEVEL_DISABLE_REPORT_SIG
  | _ => Device.DEVICE_LEVEL_ERROR_REPORT_SIG
  end.

(** The report [api_level_publish_status] publishes for a status. *)
Definition api_report_of (st : Api.api_level_status_t) : Api.status_report :=
  match st with
  | Api.API_LEVEL_ENABLED => Api.API_LEVEL_READY_REPORT_SIG
  | Api.API_LEVEL_DISABLED => Api.API_LEVEL_DISABLE_REPORT_SIG
  | _ => Api.API_LEVEL_ERROR_REPORT_SIG
  end.

(** The error report the API object publishes for [code]. *)
Definition api_error_report (code : Z) (severity : whoop_error_severity_t) : Api.effect :=
  Api.QF_PUBLISH_error
    {| error_code := code; ao_name := Api.API_LEVEL_NAME;
       error_severity := severity; error_subsys := E_WHOOP_SUBSYS_API_LEVEL;
       extra_info := 0 |}.

(** The responses among the calls made: addressee, request id, payload. *)
Definition responses (l : list Device.effect)
    : list (QActive * Z * device_level_response_event_t) :=
  flat_map (fun x => match x with
                     | Device.QACTIVE_POST_REPLYABLE_RESPONSE to id rsp => [(to, id, rsp)]
                     | _ => []
                     end) l.

(** The I2C requests among the calls made: addressee, id, payload. *)
Definition i2c_requests (l : list Device.effect)
    : list (QActive * Z * i2c_comm_req_event_t) :=
  flat_map (fun x => match x with
                     | Device.QACTIVE_POST_REPLYABLE_REQUEST to id req => [(to, id, req)]
                     | _ => []
                     end) l.

(** Does the API object tell the device to disable? *)
Definition tells_device_to_disable (l : list Api.effect) : bool :=
  existsb (fun x => match x with
                    | Api.QACTIVE_POST_device Api.DEVICE_LEVEL_DISABLE_SIG => true
                    | _ => false
                    end) l.

(** The request a caller's buffer stands for, as the client sent it. *)
Definition snapshot (m : Device.statics)
    : QActive * Z * i2c_ops_t * buffer_t * buffer_t :=
  let me := Device.ao_device_level m in
  (Device.requestor me, Device.device_level_req_id me, Device.i2c_operation me,
   Device.read_data me, Device.write_data me).

(** The status the device object has in each state: disabled in
    Disabled, enabled in Enabled and below, fatal error in Error; Starting
    keeps the status of the state it was entered from. *)
Definition device_status_matches (s : Device.state) (m : Device.statics) : Prop :=
  let st := Device.status (Device.ao_device_level m) in
  match s with
  | Device.Backstop => True
  | Device.Disabled => st = Device.DEVICE_LEVEL_DISABLED
  | Device.Starting =>
      st = Device.DEVICE_LEVEL_DISABLED \/ st = Device.DEVICE_LEVEL_FATAL_ERROR
  | Device.Error => st = Device.DEVICE_LEVEL_FATAL_ERROR
  | _ => st = Device.DEVICE_LEVEL_ENABLED
  end.

Definition api_status_matches (s : Api.state) (m : Api.statics) : Prop :=
  let st := Api.status (Api.ao_api_level m) in
  match s with
  | Api.Backstop => True
  | Api.Disabled => st = Api.API_LEVEL_DISABLED
  | Api.Starting => st = Api.API_LEVEL_DISABLED \/ st = Api.API_LEVEL_FATAL_ERROR
  | Api.Error => st = Api.API_LEVEL_FATAL_ERROR
  | _ => st = Api.API_LEVEL_ENABLED
  end.

(** The I2C request the device makes for a buffer: one transaction on
    the internal bus, with the register address of the buffer. *)
Definition read_request {K : constants} (b : buffer_t) : i2c_comm_req_event_t :=
  {| bus_id := INTERNAL; slave_address := DEVICE_LEVEL_SLAVE_ADDRESS;
     transactions :=
       [{| reg_addr_md := I2C_USE_REG_ADDR; operation := I2C_READ; nak_expected := false;
           rec_data := p_data b; rec_data_len := length b;
           send_data := NULL; send_data_len := 0; reg_addr := address b |}];
     num_transactions := 1 |}.

Definition write_request {K : constants} (b : buffer_t) : i2c_comm_req_event_t :=
  {| bus_id := INTERNAL; slave_address := DEVICE_LEVEL_SLAVE_ADDRESS;
     transactions :=
       [{| reg_addr_md := I2C_USE_REG_ADDR; operation := I2C_WRITE; nak_expected := false;
           rec_data := NULL; rec_data_len := 0;
           send_data := p_data b; send_data_len := length b; reg_addr := address b |}];
     num_transactions := 1 |}.

(** What the object is once Idle accepted a read (a write) request. *)
Definition accepted_read (from : QActive) (request_id : Z) (b : buffer_t)
    (me : Device.device_level_t) : Device.device_level_t :=
  Device.set_time_event (Some Device.DEVICE_LEVEL_LOCKUP_TIME_MS)
    (Device.set_busy_timer (Some Device.DEVICE_LEVEL_BUSY_TIME_MS)
       (Device.set_read_data b
          (Device.set_requestor from
             (Device.set_device_level_req_id request_id
                (Device.set_i2c_operation I2C_READ me))))).

Definition accepted_write (from : QActive) (request_id : Z) (b : buffer_t)
    (me : Device.device_level_t) : Device.device_level_t :=
  Device.set_time_event (Some Device.DEVICE_LEVEL_LOCKUP_TIME_MS)
    (Device.set_busy_timer (Some Device.DEVICE_LEVEL_BUSY_TIME_MS)
       (Device.set_write_data b
          (Device.set_requestor from
             (Device.set_device_level_req_id request_id
                (Device.set_i2c_operation I2C_WRITE me))))).

(* ================================================================== *)
(** * Evaluating the handlers                                          *)
(* ================================================================== *)

(** Full evaluation, leaving integer arithmetic alone. *)
Ltac eval_hsm :=
  cbv -[Z.geb Z.eqb Z.add Z.sub Z.modulo Z.pow Z.lt Z.le Z.ge Z.gt Z.min Z.of_nat
        uint32 uint8].

(** The test an evaluation stopped at. *)
Ltac head_scrut t :=
  lazymatch t with
  | match ?x with _ => _ end => head_scrut x
  | (match ?x with _ => _ end) _ => head_scrut x
  | _ => t
  end.

(** [E : r = T], with [T] a handler computation applied to an object:
    evaluate [T] from the head; at each test on the object's data use a
    hypothesis that decides it or split on it; evaluate the result in
    full once it is a tuple. *)
Ltac eval_eq E :=
  lazymatch type of E with
  | ?r = ?T =>
      let T' := eval lazy head beta iota zeta delta
                  -[Z.geb Z.eqb Z.add Z.sub Z.modulo Z.pow uint32 uint8] in T in
      lazymatch T' with
      | (_, _) =>
          change (r = T') in E;
          cbv -[Z.geb Z.eqb Z.add Z.sub Z.modulo Z.pow Z.lt Z.le Z.ge Z.gt Z.min Z.of_nat
                uint32 uint8] in E
      | _ =>
          let c0 := head_scrut T' in
          let c := eval cbv -[Z.geb Z.eqb Z.add Z.sub Z.modulo Z.pow uint32 uint8] in c0 in
          change (r = T') in E; change c0 with c in E;
          first [ match goal with H : c = _ |- _ => rewrite H in E end
                | revert E; destruct c eqn:?; intros E ];
          eval_eq E
      end
  end.

Ltac eval_call t :=
  let r := fresh "r" in
  let E := fresh "E" in
  remember t as r eqn:E; eval_eq E; subst r.

(** Evaluate every call of a handler or of the event processor in the goal. *)
Ltac eval_calls :=
  cbv zeta;
  repeat match goal with
         | |- context [@Device.dispatch ?K ?s ?e ?m] => eval_call (@Device.dispatch K s e m)
         | |- context [@Device.handler ?K ?s ?e ?m] => eval_call (@Device.handler K s e m)
         | |- context [@Api.dispatch ?K ?s ?e ?m] => eval_call (@Api.dispatch K s e m)
         | |- context [@Api.handler ?K ?s ?e ?m] => eval_call (@Api.handler K s e m)
         | |- context [@QP.bubble ?S ?St ?Ev ?Eff ?h ?n ?s ?e ?m] =>
             eval_call (@QP.bubble S St Ev Eff h n s e m)
         end;
  cbn [QP.result QP.object QP.calls fst snd].

Ltac open_device m :=
  let me := fresh "me" in
  let rc := fresh "rc" in
  destruct m as [me rc]; destruct me.

Ltac open_api m :=
  let me := fresh "me" in
  let dl := fresh "dl" in
  destruct m as [me dl]; destruct me.

(* ================================================================== *)
(** * Properties of the device-level object                            *)
(* ================================================================== *)

Lemma geb_false_lt (a b : Z) : (a >=? b) = false -> a < b.
Proof. rewrite Z.geb_leb. apply Z.leb_gt. Qed.

Lemma uint8_small (z : Z) : 0 <= z < 2 ^ 8 -> uint8 z = z.
Proof. intros H. unfold uint8. apply Z.mod_small. exact H. Qed.

Section DeviceFacts.
Context {K : constants}.
Import QP Device.

(** The [Q_EMPTY_SIG] probe only reports the superstate: it changes
    nothing and calls nothing. *)
Lemma device_empty_probe_pure (s : state) (m : statics) :
  object (handler s Q_EMPTY_SIG m) = m /\ calls (handler s Q_EMPTY_SIG m) = [].
Proof. destruct s; split; reflexivity. Qed.

(** No handler takes an initial transition. *)
Lemma device_no_initial_transition (s : state) (m : statics) :
  forall t, result (handler s Q_INIT_SIG m) <> Q_TRAN t.
Proof. destruct s; intros t; eval_calls; discriminate. Qed.

(** The hierarchy is shallower than the nesting bound: more fuel does not
    change the outcome of sending an event up the hierarchy. *)
Lemma device_bubble_fuel (n : nat) (s : state) (e : event) (m : statics) :
  bubble handler (n + QHSM_MAX_NEST_DEPTH) s e m = bubble handler QHSM_MAX_NEST_DEPTH s e m.
Proof.
  replace (n + QHSM_MAX_NEST_DEPTH)%nat
    with (S (S (S (S (S (S n)))))) by (unfold QHSM_MAX_NEST_DEPTH; lia).
  open_device m.
  destruct s, e; eval_calls; reflexivity.
Qed.

(** After [device_level_initial] the machine is in Disabled with no timer
    armed and no retry used. *)
Lemma device_booted :
  result (device_level_initial initial_statics) = Disabled /\
  device_timers_owned Disabled booted /\
  device_level_retry_counter booted = 0.
Proof.
  split; [reflexivity |]. split; [| reflexivity].
  split; intros N; exfalso; apply N; reflexivity.
Qed.

(** C8 -- in Disabled and in Error, a client read or write request makes
    no call at all (so no I2C request goes to the controller), leaves the
    machine in its state and leaves the object, with its transaction
    context, as it was. *)
Theorem C8_disabled_error_reject_requests :
  forall (m : statics) (from : QActive) (request_id : Z) (buf : buffer_t),
    dispatch Disabled (DEVICE_LEVEL_READ_SIG from request_id buf) m = (Disabled, m, []) /\
    dispatch Disabled (DEVICE_LEVEL_WRITE_SIG from request_id buf) m = (Disabled, m, []) /\
    dispatch Error (DEVICE_LEVEL_READ_SIG from request_id buf) m = (Error, m, []) /\
    dispatch Error (DEVICE_LEVEL_WRITE_SIG from request_id buf) m = (Error, m, []).
Proof.
  intros m from request_id buf. open_device m.
  repeat split; reflexivity.
Qed.

(** C7, as the code has it -- a read or write request that arrives in
    Busy, Read or Write is rejected by publishing a generic error with the
    Busy code and warning severity and recording it as the last error;
    that is the only call made (nothing is posted to the caller), and the
    machine stays in its state. *)
Theorem C7_busy_rejects_by_publishing :
  forall (m : statics) (from : QActive) (request_id : Z) (buf : buffer_t),
    let rejected := with_me (set_last_error E_WHOOP_DEVICE_LEVEL_BUSY) m in
    let report := [device_error_report E_WHOOP_DEVICE_LEVEL_BUSY E_S_WHOOP_WARNING] in
    dispatch Busy (DEVICE_LEVEL_READ_SIG from request_id buf) m = (Busy, rejected, report) /\
    dispatch Busy (DEVICE_LEVEL_WRITE_SIG from request_id buf) m = (Busy, rejected, report) /\
    dispatch Read (DEVICE_LEVEL_READ_SIG from request_id buf) m = (Read, rejected, report) /\
    dispatch Read (DEVICE_LEVEL_WRITE_SIG from request_id buf) m = (Read, rejected, report) /\
    dispatch Write (DEVICE_LEVEL_READ_SIG from request_id buf) m = (Write, rejected, report) /\
    dispatch Write (DEVICE_LEVEL_WRITE_SIG from request_id buf) m = (Write, rejected, report).
Proof.
  intros m from request_id buf. open_device m.
  repeat split; reflexivity.
Qed.

(** C2 -- in Read and in Write, a completion reply that echoes the current
    transaction id disarms the lockup timer, posts one response with the
    stored buffer and the operation kind to the stored requester under the
    stored request id (the only call made) and takes the machine to Idle;
    a completion reply with another id only publishes the MismatchRespId
    warning (recorded as the last error) and the machine stays. *)
Theorem C2_completion_reply :
  forall (m : statics) (echoed_id : Z),
    let me := ao_device_level m in
    (echoed_id = i2c_transaction_id me ->
       dispatch Read (I2C_COMM_COMPLETE_SIG echoed_id) m =
         (Idle, with_me back_in_idle m,
          [QACTIVE_POST_REPLYABLE_RESPONSE (requestor me) (device_level_req_id me)
             {| req_type := DEVICE_LEVEL_READ; buffer := read_data me |}]) /\
       dispatch Write (I2C_COMM_COMPLETE_SIG echoed_id) m =
         (Idle, with_me back_in_idle m,
          [QACTIVE_POST_REPLYABLE_RESPONSE (requestor me) (device_level_req_id me)
             {| req_type := DEVICE_LEVEL_WRITE; buffer := write_data me |}])) /\
    (echoed_id <> i2c_transaction_id me ->
       let warned := with_me (set_last_error E_WHOOP_DEVICE_LEVEL_MISMATCH_RESP_ID) m in
       let report := [device_error_report E_WHOOP_DEVICE_LEVEL_MISMATCH_RESP_ID E_S_WHOOP_WARNING] in
       dispatch Read (I2C_COMM_COMPLETE_SIG echoed_id) m = (Read, warned, report) /\
       dispatch Write (I2C_COMM_COMPLETE_SIG echoed_id) m = (Write, warned, report)).
Proof.
  intros m echoed_id. open_device m. cbn [ao_device_level i2c_transaction_id].
  split; intros H.
  - subst echoed_id.
    pose proof (Z.eqb_refl i2c_transaction_id0) as T.
    split; eval_calls; reflexivity.
  - apply Z.eqb_neq in H. split; eval_calls; reflexivity.
Qed.

(** C5, as the code has it -- an error reply that echoes the current
    transaction id is published as a generic error with the HAL code and
    error severity and takes the machine to Error, which publishes the
    error status; a lockup or busy timeout with the retries used up is
    published as a generic error with the I2cTimeout code and takes the
    machine to Idle.  These publications are the only calls made: nothing
    is posted to the requester. *)
Theorem C5_errors_are_published :
  forall (m : statics) (echoed_id hal_error_code : Z),
    let me := ao_device_level m in
    (echoed_id = i2c_transaction_id me ->
       let report := [device_error_report hal_error_code E_S_WHOOP_ERROR;
                      QF_PUBLISH_status DEVICE_LEVEL_ERROR_REPORT_SIG] in
       dispatch Read (I2C_COMM_ERROR_SIG echoed_id hal_error_code) m =
         (Error, with_me (in_error hal_error_code) m, report) /\
       dispatch Write (I2C_COMM_ERROR_SIG echoed_id hal_error_code) m =
         (Error, with_me (in_error hal_error_code) m, report)) /\
    (DEVICE_LEVEL_I2C_ACTIVE_RETRIES <= device_level_retry_counter m ->
       let timed_out :=
         with_me (fun me => back_in_idle
                    (set_last_hal_error E_TIME_OUT
                       (set_last_error E_WHOOP_DEVICE_LEVEL_I2C_TIMEOUT me))) m in
       let report := [device_error_report E_WHOOP_DEVICE_LEVEL_I2C_TIMEOUT E_S_WHOOP_ERROR] in
       dispatch Read LOCAL_DEVICE_LEVEL_TIMEOUT_SIG m = (Idle, timed_out, report) /\
       dispatch Write LOCAL_DEVICE_LEVEL_TIMEOUT_SIG m = (Idle, timed_out, report) /\
       dispatch Read LOCAL_DEVICE_LEVEL_BUSY_TIMEOUT_SIG m = (Idle, timed_out, report) /\
       dispatch Write LOCAL_DEVICE_LEVEL_BUSY_TIMEOUT_SIG m = (Idle, timed_out, report)).
Proof.
  intros m echoed_id hal_error_code. open_device m.
  cbn [ao_device_level i2c_transaction_id device_level_retry_counter].
  split; intros H.
  - subst echoed_id.
    pose proof (Z.eqb_refl i2c_transaction_id0) as T.
    split; eval_calls; reflexivity.
  - apply Z.geb_le in H. unfold DEVICE_LEVEL_I2C_ACTIVE_RETRIES in H.
    refine (conj _ (conj _ (conj _ _))); eval_calls; reflexivity.
Qed.

(** The bus counts as enabled for exactly two of the four statuses. *)
Lemma device_bus_enabled_iff (st : i2c_bus_status_t) :
  device_level_func_is_i2c_bus_enabled st = true <->
  (st = INTERNAL_ONLY_READY \/ st = BOTH_READY).
Proof.
  destruct st; cbn; split; intros H;
    first [ discriminate H | destruct H as [H | H]; discriminate H
          | reflexivity | left; reflexivity | right; reflexivity ].
Qed.

(** A bus status report that says the internal bus is ready is taken by
    the backstop in every state and changes nothing. *)
Lemma device_bus_ready_is_absorbed (s : state) (st : i2c_bus_status_t) (m : statics) :
  st = INTERNAL_ONLY_READY \/ st = BOTH_READY ->
  dispatch s (I2C_BUS_STATUS_SIG st) m = (s, m, []).
Proof.
  intros [E | E]; subst st; open_device m; destruct s; reflexivity.
Qed.

(** C10 -- in every state, a bus status report that is neither
    InternalOnlyReady nor BothReady marks the object disabled and takes
    the machine to Disabled, which publishes the disabled status and
    nothing else.  Coming from Read or Write both timers are disarmed on
    the way out, and the reply of the abandoned transaction, when it
    comes, is dropped in Disabled. *)
Theorem C10_bus_not_ready_disables :
  forall (s : state) (st : i2c_bus_status_t) (m : statics),
    st <> INTERNAL_ONLY_READY -> st <> BOTH_READY ->
    let r := dispatch s (I2C_BUS_STATUS_SIG st) m in
    result r = Disabled /\
    status (ao_device_level (object r)) = DEVICE_LEVEL_DISABLED /\
    calls r = [QF_PUBLISH_status DEVICE_LEVEL_DISABLE_REPORT_SIG] /\
    (s = Read \/ s = Write ->
       time_event (ao_device_level (object r)) = None /\
       busy_timer (ao_device_level (object r)) = None) /\
    (forall echoed_id,
       dispatch Disabled (I2C_COMM_COMPLETE_SIG echoed_id) (object r) = (Disabled, object r, [])).
Proof.
  intros s st m NI NB. open_device m.
  destruct st;
    try (exfalso; apply NI; reflexivity); try (exfalso; apply NB; reflexivity);
    destruct s; eval_hsm;
    (refine (conj _ (conj _ (conj _ (conj _ _))));
     [ reflexivity | reflexivity | reflexivity
     | intros [E | E]; try discriminate E; split; reflexivity
     | intros echoed_id; reflexivity ]).
Qed.

(** The retry counter only ever stays or goes up by one. *)
Lemma device_retry_counter_step (s : state) (e : event) (m : statics) :
  let c := device_level_retry_counter m in
  let c' := device_level_retry_counter (object (dispatch s e m)) in
  c' = c \/ (c' = uint8 (c + 1) /\ c < DEVICE_LEVEL_I2C_ACTIVE_RETRIES).
Proof.
  open_device m.
  destruct s, e; eval_calls; cbn [device_level_retry_counter];
    first [ left; reflexivity
          | right; split; [reflexivity | ];
            match goal with
            | E : (_ >=? _) = false |- _ => apply geb_false_lt in E
            end; assumption ].
Qed.

Lemma device_run_cons (s : state) (e : event) (es : list event) (m : statics) :
  run_events s (e :: es) m =
    let '(s1, m1, o1) := dispatch s e m in
    let '(s2, m2, o2) := run_events s1 es m1 in
    (s2, m2, o1 ++ o2).
Proof. reflexivity. Qed.

Lemma device_retry_counter_bounded_step (s : state) (e : event) (m : statics) :
  0 <= device_level_retry_counter m <= DEVICE_LEVEL_I2C_ACTIVE_RETRIES ->
  0 <= device_level_retry_counter (object (dispatch s e m)) <= DEVICE_LEVEL_I2C_ACTIVE_RETRIES.
Proof.
  intros H. unfold DEVICE_LEVEL_I2C_ACTIVE_RETRIES in *.
  destruct (device_retry_counter_step s e m) as [E | [E L]]; rewrite E.
  - exact H.
  - unfold DEVICE_LEVEL_I2C_ACTIVE_RETRIES in L. rewrite uint8_small; lia.
Qed.

Lemma device_retry_counter_bounded_run (es : list event) :
  forall (s : state) (m : statics),
    0 <= device_level_retry_counter m <= DEVICE_LEVEL_I2C_ACTIVE_RETRIES ->
    0 <= device_level_retry_counter (object (run_events s es m)) <= DEVICE_LEVEL_I2C_ACTIVE_RETRIES.
Proof.
  induction es as [| e es IH]; intros s m H.
  - exact H.
  - rewrite device_run_cons.
    pose proof (device_retry_counter_bounded_step s e m H) as H1.
    destruct (dispatch s e m) as [[s1 m1] o1]. cbn [object fst snd] in H1.
    specialize (IH s1 m1 H1).
    destruct (run_events s1 es m1) as [[s2 m2] o2]. exact IH.
Qed.

Lemma try_retry_under_bound (m : statics) :
  0 <= device_level_retry_counter m < DEVICE_LEVEL_I2C_ACTIVE_RETRIES ->
  device_level_try_retry m =
    (true, with_retry_counter (device_level_retry_counter m + 1) m,
     [QACTIVE_POST_self LOCAL_DEVICE_LEVEL_RETRY_SIG]).
Proof.
  unfold DEVICE_LEVEL_I2C_ACTIVE_RETRIES. intros H. destruct m as [me rc].
  cbn [device_level_retry_counter] in H.
  assert (E : (rc >=? 10) = false) by (rewrite Z.geb_leb; apply Z.leb_gt; lia).
  eval_call (device_level_try_retry {| ao_device_level := me; device_level_retry_counter := rc |}).
  eval_hsm. rewrite uint8_small by lia. reflexivity.
Qed.

Lemma try_retry_at_bound (m : statics) :
  DEVICE_LEVEL_I2C_ACTIVE_RETRIES <= device_level_retry_counter m ->
  device_level_try_retry m = (false, m, []).
Proof.
  unfold DEVICE_LEVEL_I2C_ACTIVE_RETRIES. intros H. destruct m as [me rc].
  cbn [device_level_retry_counter] in H. apply Z.geb_le in H.
  eval_call (device_level_try_retry {| ao_device_level := me; device_level_retry_counter := rc |}).
  reflexivity.
Qed.

Lemma try_retry_times_succ (n : nat) (m : statics) :
  object (try_retry_times (S n) m)
    = object (try_retry_times n (object (device_level_try_retry m))).
Proof.
  cbn [try_retry_times]. unfold bind, ret.
  destruct (device_level_try_retry m) as [[b m1] o1]. cbn [object fst snd].
  destruct (try_retry_times n m1) as [[bs m2] o2]. reflexivity.
Qed.

Lemma try_retry_times_bounded (n : nat) :
  forall m : statics,
    0 <= device_level_retry_counter m <= DEVICE_LEVEL_I2C_ACTIVE_RETRIES ->
    0 <= device_level_retry_counter (object (try_retry_times n m))
      <= DEVICE_LEVEL_I2C_ACTIVE_RETRIES.
Proof.
  induction n as [| n IH]; intros m H.
  - exact H.
  - rewrite try_retry_times_succ. apply IH.
    destruct (Z.eq_dec (device_level_retry_counter m) DEVICE_LEVEL_I2C_ACTIVE_RETRIES) as [E | E].
    + rewrite try_retry_at_bound by lia. exact H.
    + rewrite try_retry_under_bound by lia.
      destruct m; cbn. cbn in H, E. lia.
Qed.

(** C6 -- with the retry counter within its bound of 10: a call of
    try_retry under the bound adds one to the counter, posts the Retry
    signal to the object itself and returns true; a call at the bound
    returns false, posts nothing and changes nothing; and the counter
    stays within the bound through every sequence of calls and through
    every run of events of the machine. *)
Theorem C6_try_retry_bounded :
  forall m : statics,
    0 <= device_level_retry_counter m <= DEVICE_LEVEL_I2C_ACTIVE_RETRIES ->
    (device_level_retry_counter m < DEVICE_LEVEL_I2C_ACTIVE_RETRIES ->
       device_level_try_retry m =
         (true, with_retry_counter (device_level_retry_counter m + 1) m,
          [QACTIVE_POST_self LOCAL_DEVICE_LEVEL_RETRY_SIG])) /\
    (device_level_retry_counter m = DEVICE_LEVEL_I2C_ACTIVE_RETRIES ->
       device_level_try_retry m = (false, m, [])) /\
    (forall n : nat,
       0 <= device_level_retry_counter (object (try_retry_times n m))
         <= DEVICE_LEVEL_I2C_ACTIVE_RETRIES) /\
    (forall (s : state) (es : list event),
       0 <= device_level_retry_counter (object (run_events s es m))
         <= DEVICE_LEVEL_I2C_ACTIVE_RETRIES).
Proof.
  intros m H. refine (conj _ (conj _ (conj _ _))).
  - intros L. apply try_retry_under_bound. lia.
  - intros E. apply try_retry_at_bound. lia.
  - intros n. apply try_retry_times_bounded. exact H.
  - intros s es. apply device_retry_counter_bounded_run. exact H.
Qed.

(** C3, what the code does -- the Retry signal that try_retry posts has no
    case in any handler: in Read and in Write it is dropped, no I2C
    request is made and the transaction id stays.  No event resets the
    retry counter either: across any event it stays or goes up by one,
    and the entry action of Idle leaves it alone.  On the sample object:
    after a lockup timeout, the Retry signal and the late completion, no
    request was made and the counter is still 1 in Idle. *)
Theorem C3_retry_signal_is_dropped :
  forall m : statics,
    dispatch Read LOCAL_DEVICE_LEVEL_RETRY_SIG m = (Read, m, []) /\
    dispatch Write LOCAL_DEVICE_LEVEL_RETRY_SIG m = (Write, m, []) /\
    device_level_retry_counter (object (handler Idle Q_ENTRY_SIG m))
      = device_level_retry_counter m /\
    (forall (s : state) (e : event),
       device_level_retry_counter (object (dispatch s e m)) = device_level_retry_counter m \/
       device_level_retry_counter (object (dispatch s e m))
         = uint8 (device_level_retry_counter m + 1)) /\
    (let r := run_events Read
                [LOCAL_DEVICE_LEVEL_TIMEOUT_SIG; LOCAL_DEVICE_LEVEL_RETRY_SIG;
                 I2C_COMM_COMPLETE_SIG 1] sample_in_flight in
     result r = Idle /\
     i2c_request_ids (calls r) = [] /\
     device_level_retry_counter (object r) = 1).
Proof.
  intros m. refine (conj _ (conj _ (conj _ (conj _ _)))).
  - open_device m. reflexivity.
  - open_device m. reflexivity.
  - open_device m. reflexivity.
  - intros s e. destruct (device_retry_counter_step s e m) as [E | [E _]]; auto.
  - repeat split; reflexivity.
Qed.

(** One event makes at most one I2C request.  When it makes none, the
    transaction id stays, or the machine went to Idle and the id is 0.
    When it makes one, the machine is in Read or Write and stays there,
    and the request carries the id plus one on 32 bits, which is the new
    id. *)
Lemma device_transaction_id_step (s : state) (e : event) (m : statics) :
  let r := dispatch s e m in
  let id := i2c_transaction_id (ao_device_level m) in
  let id' := i2c_transaction_id (ao_device_level (object r)) in
  (i2c_request_ids (calls r) = [] /\ (id' = id \/ (id' = 0 /\ result r = Idle))) \/
  (i2c_request_ids (calls r) = [uint32 (id + 1)] /\ id' = uint32 (id + 1) /\
   result r = s /\ (s = Read \/ s = Write)).
Proof.
  open_device m.
  destruct s, e; eval_calls;
    first [ left; split; [reflexivity | left; reflexivity]
          | left; split; [reflexivity | right; split; reflexivity]
          | right; refine (conj _ (conj _ (conj _ _)));
            [reflexivity | reflexivity | reflexivity | auto] ].
Qed.

Lemma ids_follow_app (l1 : list Z) :
  forall (a b c : Z) (l2 : list Z),
    ids_follow a l1 b -> ids_follow b l2 c -> ids_follow a (l1 ++ l2) c.
Proof.
  induction l1 as [| x l1 IH]; intros a b c l2 H1 H2.
  - cbn [app]. cbn [ids_follow] in H1. destruct H1 as [E | E]; subst b.
    + exact H2.
    + destruct l2 as [| y l2]; cbn [ids_follow] in *.
      * destruct H2; auto.
      * destruct H2 as [[E | E] H2]; split; auto.
  - cbn [app ids_follow] in *. destruct H1 as [Hx H1]. split; [exact Hx |].
    eapply IH; eassumption.
Qed.

Lemma device_ids_follow_step (s : state) (e : event) (m : statics) :
  ids_follow (i2c_transaction_id (ao_device_level m))
    (i2c_request_ids (calls (dispatch s e m)))
    (i2c_transaction_id (ao_device_level (object (dispatch s e m)))).
Proof.
  destruct (device_transaction_id_step s e m) as [[E H] | [E [E' _]]]; rewrite E.
  - cbn [ids_follow]. destruct H as [H | [H _]]; auto.
  - cbn [ids_follow]. rewrite E'. auto.
Qed.

Lemma device_ids_follow_run (es : list event) :
  forall (s : state) (m : statics),
    ids_follow (i2c_transaction_id (ao_device_level m))
      (i2c_request_ids (calls (run_events s es m)))
      (i2c_transaction_id (ao_device_level (object (run_events s es m)))).
Proof.
  induction es as [| e es IH]; intros s m.
  - cbn. left. reflexivity.
  - rewrite device_run_cons.
    pose proof (device_ids_follow_step s e m) as H1.
    destruct (dispatch s e m) as [[s1 m1] o1]. cbn [object calls fst snd] in H1.
    specialize (IH s1 m1).
    destruct (run_events s1 es m1) as [[s2 m2] o2]. cbn [object calls fst snd] in *.
    unfold i2c_request_ids in *. rewrite flat_map_app.
    eapply ids_follow_app; eassumption.
Qed.

(** C1, as the code has it -- every I2C request is tagged with the
    transaction id plus one (on 32 bits), which becomes the new id, and
    only the Read and Write states make requests; the entry action of
    Idle sets the id back to 0.  So through every run of events each
    request id is the one before it plus one, or 1 when the machine
    passed through Idle in between: ids increase within one stay in Read
    or Write and start again at 1 for the next operation. *)
Theorem C1_transaction_id_restarts_in_idle :
  forall (s : state) (m : statics),
    (forall e : event,
       let r := dispatch s e m in
       let id := i2c_transaction_id (ao_device_level m) in
       let id' := i2c_transaction_id (ao_device_level (object r)) in
       (i2c_request_ids (calls r) = [] /\ (id' = id \/ (id' = 0 /\ result r = Idle))) \/
       (i2c_request_ids (calls r) = [uint32 (id + 1)] /\ id' = uint32 (id + 1) /\
        result r = s /\ (s = Read \/ s = Write))) /\
    i2c_transaction_id (ao_device_level (object (handler Idle Q_ENTRY_SIG m))) = 0 /\
    (forall es : list event,
       ids_follow (i2c_transaction_id (ao_device_level m))
         (i2c_request_ids (calls (run_events s es m)))
         (i2c_transaction_id (ao_device_level (object (run_events s es m))))).
Proof.
  intros s m. refine (conj _ (conj _ _)).
  - intros e. apply device_transaction_id_step.
  - open_device m. reflexivity.
  - intros es. apply device_ids_follow_run.
Qed.

(** Every entry action that arms a timer has its exit action disarm it. *)
Lemma device_exit_disarms (s : state) (t : device_timer) (m m' : statics) :
  device_timer_of t m = None ->
  device_timer_of t (object (handler s Q_ENTRY_SIG m)) <> None ->
  device_timer_of t (object (handler s Q_EXIT_SIG m')) = None.
Proof.
  open_device m. open_device m'.
  destruct s, t; eval_calls; cbn; intros H0 H1;
    first [ reflexivity | subst; contradiction ].
Qed.

(** Armed timers stay with the states that own them across any event. *)
Lemma device_timers_owned_step (s : state) (e : event) (m : statics) :
  device_timers_owned s m ->
  device_timers_owned (result (dispatch s e m)) (object (dispatch s e m)).
Proof.
  unfold device_timers_owned, device_timer_of. open_device m.
  cbn [ao_device_level time_event busy_timer]. intros [H1 H2].
  destruct s, e; eval_calls; cbn [ao_device_level time_event busy_timer];
    (split; intros N;
     first [ congruence
           | solve [auto 6]
           | exfalso; destruct (H1 N) as [E | [E | E]]; discriminate E
           | exfalso; destruct (H2 N) as [E | [E | E]]; discriminate E ]).
Qed.

End DeviceFacts.

(* ================================================================== *)
(** * Properties of the API-level object                               *)
(* ================================================================== *)

Section ApiFacts.
Context {K : constants}.
Import QP Api.

Lemma api_empty_probe_pure (s : state) (m : statics) :
  object (handler s Q_EMPTY_SIG m) = m /\ calls (handler s Q_EMPTY_SIG m) = [].
Proof. destruct s; split; reflexivity. Qed.

Lemma api_no_initial_transition (s : state) (m : statics) :
  forall t, result (handler s Q_INIT_SIG m) <> Q_TRAN t.
Proof. destruct s; intros t; eval_calls; discriminate. Qed.

Lemma api_bubble_fuel (n : nat) (s : state) (e : event) (m : statics) :
  bubble handler (n + QHSM_MAX_NEST_DEPTH) s e m = bubble handler QHSM_MAX_NEST_DEPTH s e m.
Proof.
  replace (n + QHSM_MAX_NEST_DEPTH)%nat
    with (S (S (S (S (S (S n)))))) by (unfold QHSM_MAX_NEST_DEPTH; lia).
  open_api m.
  destruct s, e; eval_calls; reflexivity.
Qed.



Lemma api_exit_disarms (s : state) (t : api_timer) (m m' : statics) :
  api_timer_of t m = None ->
  api_timer_of t (object (handler s Q_ENTRY_SIG m)) <> None ->
  api_timer_of t (object (handler s Q_EXIT_SIG m')) = None.
Proof.
  open_api m. open_api m'.
  destruct s, t; eval_calls; cbn; intros H0 H1;
    first [ reflexivity | subst; contradiction ].
Qed.

Lemma api_timers_owned_step (s : state) (e : event) (m : statics) :
  api_timers_owned s m ->
  api_timers_owned (result (dispatch s e m)) (object (dispatch s e m)).
Proof.
  unfold api_timers_owned, api_timer_of. open_api m.
  cbn [ao_api_level time_event busy_event]. intros [H1 H2].
  destruct s, e; eval_calls; cbn [ao_api_level time_event busy_event];
    (split; intros N;
     first [ congruence
           | solve [auto]
           | exfalso; specialize (H1 N); discriminate H1
           | exfalso; specialize (H2 N); discriminate H2 ]).
Qed.

End ApiFacts.

(* ================================================================== *)
(** * Timers, in both objects                                          *)
(* ================================================================== *)

(** C9 -- in both objects, for every state and each of the object's
    timers: when the entry action of the state arms the timer, the exit
    action of that state disarms it.  Hence an armed timer always belongs
    to a state the machine is in: processing any event keeps the lockup
    timer with Starting, Read and Write and the busy timer with Busy and
    its substates in the device object, and the lockup timer with
    Starting and the busy timer with Busy in the API object. *)
Theorem C9_exit_disarms_timers :
  forall (K : constants),
    (forall (s : Device.state) (t : device_timer) (m m' : Device.statics),
       device_timer_of t m = None ->
       device_timer_of t (QP.object (Device.handler s Device.Q_ENTRY_SIG m)) <> None ->
       device_timer_of t (QP.object (Device.handler s Device.Q_EXIT_SIG m')) = None) /\
    (forall (s : Api.state) (t : api_timer) (m m' : Api.statics),
       api_timer_of t m = None ->
       api_timer_of t (QP.object (Api.handler s Api.Q_ENTRY_SIG m)) <> None ->
       api_timer_of t (QP.object (Api.handler s Api.Q_EXIT_SIG m')) = None) /\
    (forall (s : Device.state) (e : Device.event) (m : Device.statics),
       device_timers_owned s m ->
       device_timers_owned (QP.result (Device.dispatch s e m))
         (QP.object (Device.dispatch s e m))) /\
    (forall (s : Api.state) (e : Api.event) (m : Api.statics),
       api_timers_owned s m ->
       api_timers_owned (QP.result (Api.dispatch s e m))
         (QP.object (Api.dispatch s e m))).
Proof.
  intros K. refine (conj _ (conj _ (conj _ _))).
  - apply @device_exit_disarms.
  - apply @api_exit_disarms.
  - apply @device_timers_owned_step.
  - apply @api_timers_owned_step.
Qed.

(* ================================================================== *)
(** * The properties on concrete inputs                                *)
(* ================================================================== *)

(** The sample object is where the machine is after [enable_and_read]. *)
Lemma sample_in_flight_reachable :
  QP.result (Device.run_events (K := sample_constants) Device.Disabled enable_and_read
               (booted (K := sample_constants))) = Device.Read /\
  QP.object (Device.run_events (K := sample_constants) Device.Disabled enable_and_read
               (booted (K := sample_constants))) = sample_in_flight.
Proof. split; vm_compute; reflexivity. Qed.

(** C1 fails as stated: over two operations in a row, from start-up, the
    two I2C requests both carry id 1, so the ids are neither increasing
    nor distinct. *)
Lemma C1_transaction_id_reused :
  i2c_request_ids
    (QP.calls (Device.run_events (K := sample_constants) Device.Disabled two_operations
                 (booted (K := sample_constants)))) = [1; 1] /\
  ~ StronglySorted Z.lt
      (i2c_request_ids
         (QP.calls (Device.run_events (K := sample_constants) Device.Disabled two_operations
                      (booted (K := sample_constants))))) /\
  ~ NoDup
      (i2c_request_ids
         (QP.calls (Device.run_events (K := sample_constants) Device.Disabled two_operations
                      (booted (K := sample_constants))))).
Proof.
  assert (E : i2c_request_ids
                (QP.calls (Device.run_events (K := sample_constants) Device.Disabled
                             two_operations (booted (K := sample_constants)))) = [1; 1])
    by (vm_compute; reflexivity).
  rewrite E. refine (conj eq_refl (conj _ _)).
  - intros H. inversion H as [| x l _ F]; subst.
    inversion F as [| y l' L _]; subst. lia.
  - intros H. inversion H as [| x l N _]; subst. apply N. left. reflexivity.
Qed.

(** C5 fails as stated: neither the matching I2C error reply nor the
    timeout with the retries used up makes the device post anything to
    the requester (7). *)
Lemma C5_no_error_reply_to_caller :
  existsb (posted_to (K := sample_constants) 7)
    (QP.calls (Device.dispatch (K := sample_constants) Device.Read
                 (Device.I2C_COMM_ERROR_SIG 1 66) sample_in_flight)) = false /\
  existsb (posted_to (K := sample_constants) 7)
    (QP.calls (Device.dispatch (K := sample_constants) Device.Read
                 Device.LOCAL_DEVICE_LEVEL_TIMEOUT_SIG sample_exhausted)) = false.
Proof. split; vm_compute; reflexivity. Qed.

(** C7 fails as stated: a read request from object 8 that arrives in Read
    is answered by a publication only; nothing is posted to 8. *)
Lemma C7_no_busy_reply_to_caller :
  existsb (posted_to (K := sample_constants) 8)
    (QP.calls (Device.dispatch (K := sample_constants) Device.Read
                 (Device.DEVICE_LEVEL_READ_SIG 8 43 sample_buffer) sample_in_flight)) = false /\
  QP.calls (Device.dispatch (K := sample_constants) Device.Read
              (Device.DEVICE_LEVEL_READ_SIG 8 43 sample_buffer) sample_in_flight)
    = [device_error_report 1 E_S_WHOOP_WARNING].
Proof. split; vm_compute; reflexivity. Qed.

(** C2 on the sample object: the completion of transaction 1 in Read. *)
Lemma C2_completion_reply_witness :
  1 = Device.i2c_transaction_id (Device.ao_device_level sample_in_flight) /\
  Device.dispatch (K := sample_constants) Device.Read (Device.I2C_COMM_COMPLETE_SIG 1)
      sample_in_flight
    = (Device.Idle, with_me back_in_idle sample_in_flight,
       [Device.QACTIVE_POST_REPLYABLE_RESPONSE 7 42
          {| req_type := DEVICE_LEVEL_READ; buffer := sample_buffer |}]).
Proof.
  split; [reflexivity |].
  apply (proj1 (proj1 (@C2_completion_reply sample_constants sample_in_flight 1) eq_refl)).
Defined.

(** C5 on the sample object: the error reply to transaction 1 in Read. *)
Lemma C5_errors_are_published_witness :
  1 = Device.i2c_transaction_id (Device.ao_device_level sample_in_flight) /\
  Device.dispatch (K := sample_constants) Device.Read (Device.I2C_COMM_ERROR_SIG 1 66)
      sample_in_flight
    = (Device.Error, with_me (in_error (K := sample_constants) 66) sample_in_flight,
       [device_error_report 66 E_S_WHOOP_ERROR;
        Device.QF_PUBLISH_status Device.DEVICE_LEVEL_ERROR_REPORT_SIG]).
Proof.
  split; [reflexivity |].
  apply (proj1 (proj1 (@C5_errors_are_published sample_constants sample_in_flight 1 66)
                  eq_refl)).
Defined.

(** C6 on the object as initialised: the first call of try_retry. *)
Lemma C6_try_retry_bounded_witness :
  0 <= Device.device_level_retry_counter (Device.initial_statics (K := sample_constants))
    <= Device.DEVICE_LEVEL_I2C_ACTIVE_RETRIES /\
  Device.device_level_try_retry (Device.initial_statics (K := sample_constants))
    = (true, with_retry_counter (0 + 1) (Device.initial_statics (K := sample_constants)),
       [Device.QACTIVE_POST_self Device.LOCAL_DEVICE_LEVEL_RETRY_SIG]).
Proof.
  assert (H : 0 <= Device.device_level_retry_counter
                     (Device.initial_statics (K := sample_constants))
                <= Device.DEVICE_LEVEL_I2C_ACTIVE_RETRIES)
    by (split; intros E; discriminate E).
  split; [exact H |].
  apply (proj1 (@C6_try_retry_bounded sample_constants (Device.initial_statics (K := sample_constants)) H)).
  reflexivity.
Defined.

(** C9 on the device's Busy state: its entry arms the busy timer of the
    object as initialised, its exit disarms the busy timer of the sample
    object. *)
Lemma C9_exit_disarms_timers_witness :
  device_timer_of Device_busy_timer (Device.initial_statics (K := sample_constants)) = None /\
  device_timer_of Device_busy_timer
    (QP.object (Device.handler (K := sample_constants) Device.Busy Device.Q_EXIT_SIG
                  sample_in_flight)) = None.
Proof.
  split; [reflexivity |].
  apply (proj1 (C9_exit_disarms_timers sample_constants) Device.Busy Device_busy_timer
           (Device.initial_statics (K := sample_constants)) sample_in_flight).
  - reflexivity.
  - discriminate.
Defined.

(** C10 on the sample object: the bus reports ExternalOnlyReady during a
    read. *)
Lemma C10_bus_not_ready_disables_witness :
  EXTERNAL_ONLY_READY <> INTERNAL_ONLY_READY /\
  EXTERNAL_ONLY_READY <> BOTH_READY /\
  QP.result (Device.dispatch (K := sample_constants) Device.Read
               (Device.I2C_BUS_STATUS_SIG EXTERNAL_ONLY_READY) sample_in_flight)
    = Device.Disabled.
Proof.
  assert (NI : EXTERNAL_ONLY_READY <> INTERNAL_ONLY_READY) by discriminate.
  assert (NB : EXTERNAL_ONLY_READY <> BOTH_READY) by discriminate.
  refine (conj NI (conj NB _)).
  apply (proj1 (@C10_bus_not_ready_disables sample_constants Device.Read
                  EXTERNAL_ONLY_READY sample_in_flight NI NB)).
Defined.

(* ================================================================== *)
(** * More on the device-level object                                  *)
(* ================================================================== *)

Section DeviceLifecycle.
Context {K : constants}.
Import QP Device.

(** A property of state and object that every event keeps is kept by
    every run of events. *)
Lemma device_run_invariant (P : state -> statics -> Prop) :
  (forall s e m, P s m -> P (result (dispatch s e m)) (object (dispatch s e m))) ->
  forall es s m, P s m -> P (result (run_events s es m)) (object (run_events s es m)).
Proof.
  intros step es. induction es as [| e es IH]; intros s m H.
  - exact H.
  - rewrite device_run_cons.
    pose proof (step s e m H) as H1.
    destruct (dispatch s e m) as [[s1 m1] o1]. cbn [result object fst snd] in H1.
    specialize (IH s1 m1 H1).
    destruct (run_events s1 es m1) as [[s2 m2] o2]. exact IH.
Qed.

(** X1 -- enabling the device: in Disabled the enable request takes the
    machine to Starting, which arms the lockup timer with the
    initialisation timeout and posts the enter-idle action, and nothing
    else; on that action Starting is left for Idle: the lockup timer is
    disarmed, the status becomes enabled, the ready report is published
    once, Enabled posts its own enter-idle action and the transaction id
    is cleared. *)
Theorem X1_device_enable_sequence :
  forall m : statics,
    dispatch Disabled DEVICE_LEVEL_ENABLE_SIG m =
      (Starting, with_me (set_time_event (Some DEVICE_LEVEL_INIT_LOCKUP_TIME_MS)) m,
       [QACTIVE_POST_self LOCAL_DEVICE_LEVEL_ACTION_ENTER_IDLE_SIG]) /\
    dispatch Starting LOCAL_DEVICE_LEVEL_ACTION_ENTER_IDLE_SIG m =
      (Idle,
       with_me (fun me => set_i2c_transaction_id 0
                            (set_status DEVICE_LEVEL_ENABLED (set_time_event None me))) m,
       [QF_PUBLISH_status DEVICE_LEVEL_READY_REPORT_SIG;
        QACTIVE_POST_self LOCAL_DEVICE_LEVEL_ACTION_ENTER_IDLE_SIG]) /\
    (status (ao_device_level m) = DEVICE_LEVEL_ENABLED ->
     dispatch Idle LOCAL_DEVICE_LEVEL_ACTION_ENTER_IDLE_SIG m =
       (Idle, with_me (set_i2c_transaction_id 0) m, [])).
Proof.
  intros m. open_device m. refine (conj _ (conj _ _)).
  - reflexivity.
  - reflexivity.
  - cbn [ao_device_level status]. intros E. subst status0. reflexivity.
Qed.

(** X2 -- Idle accepts a request: a read (write) request in Idle stores
    the requester, the request id, the operation kind and the buffer,
    takes the machine to Read (Write) through Busy, which arms the busy
    timer, arms the lockup timer with the operation timeout and posts the
    start action; no I2C request is made yet and the transaction id is
    untouched.  The buffer accessors then return the request's register
    address and data pointer. *)
Theorem X2_device_idle_accepts_request :
  forall (m : statics) (from : QActive) (request_id : Z) (buf : buffer_t),
    dispatch Idle (DEVICE_LEVEL_READ_SIG from request_id buf) m =
      (Read, with_me (accepted_read from request_id buf) m,
       [QACTIVE_POST_self LOCAL_DEVICE_LEVEL_I2C_TRANSACTION_START_RW_SIG]) /\
    dispatch Idle (DEVICE_LEVEL_WRITE_SIG from request_id buf) m =
      (Write, with_me (accepted_write from request_id buf) m,
       [QACTIVE_POST_self LOCAL_DEVICE_LEVEL_I2C_TRANSACTION_START_RW_SIG]) /\
    device_level_get_read_address
      (object (dispatch Idle (DEVICE_LEVEL_READ_SIG from request_id buf) m)) = address buf /\
    device_level_get_read_data
      (object (dispatch Idle (DEVICE_LEVEL_READ_SIG from request_id buf) m)) = p_data buf /\
    device_level_get_write_address
      (object (dispatch Idle (DEVICE_LEVEL_WRITE_SIG from request_id buf) m)) = address buf /\
    device_level_get_write_data
      (object (dispatch Idle (DEVICE_LEVEL_WRITE_SIG from request_id buf) m)) = p_data buf.
Proof.
  intros m from request_id buf. open_device m.
  refine (conj _ (conj _ (conj _ (conj _ (conj _ _))))); reflexivity.
Qed.

(** X3 -- the I2C request: on the start action, Read (Write) increments
    the transaction id on 32 bits and posts one request to the I2C
    controller, tagged with the new id: one transaction on the internal
    bus to the slave address, with the register address of the stored
    read (write) buffer, receiving into (sending from) its data pointer
    over its length; that is the only call, and the machine stays. *)
Theorem X3_device_request_contents :
  forall m : statics,
    let me := ao_device_level m in
    let id := uint32 (i2c_transaction_id me + 1) in
    dispatch Read LOCAL_DEVICE_LEVEL_I2C_TRANSACTION_START_RW_SIG m =
      (Read,
       with_me (fun me => set_i2c_transaction_id id (set_i2c_operation I2C_READ me)) m,
       [QACTIVE_POST_REPLYABLE_REQUEST i2c_comm_ao id (read_request (read_data me))]) /\
    dispatch Write LOCAL_DEVICE_LEVEL_I2C_TRANSACTION_START_RW_SIG m =
      (Write,
       with_me (fun me => set_i2c_transaction_id id (set_i2c_operation I2C_WRITE me)) m,
       [QACTIVE_POST_REPLYABLE_REQUEST i2c_comm_ao id (write_request (write_data me))]).
Proof.
  intros m. open_device m. split; reflexivity.
Qed.

(** X4 -- round trip: with the transaction id cleared, as Idle leaves it,
    a read (write) request, its start action and the controller's
    completion for id 1 bring the machine back to Idle, timers disarmed
    and id cleared, having posted the start action, one I2C request with
    id 1 for the request's buffer and one response to the requester under
    the request's id, carrying the operation kind and the buffer. *)
Theorem X4_device_round_trip :
  forall (m : statics) (from : QActive) (request_id : Z) (buf : buffer_t),
    i2c_transaction_id (ao_device_level m) = 0 ->
    run_events Idle
      [DEVICE_LEVEL_READ_SIG from request_id buf;
       LOCAL_DEVICE_LEVEL_I2C_TRANSACTION_START_RW_SIG;
       I2C_COMM_COMPLETE_SIG 1] m =
      (Idle,
       with_me (fun me => back_in_idle (accepted_read from request_id buf me)) m,
       [QACTIVE_POST_self LOCAL_DEVICE_LEVEL_I2C_TRANSACTION_START_RW_SIG;
        QACTIVE_POST_REPLYABLE_REQUEST i2c_comm_ao 1 (read_request buf);
        QACTIVE_POST_REPLYABLE_RESPONSE from request_id
          {| req_type := DEVICE_LEVEL_READ; buffer := buf |}]) /\
    run_events Idle
      [DEVICE_LEVEL_WRITE_SIG from request_id buf;
       LOCAL_DEVICE_LEVEL_I2C_TRANSACTION_START_RW_SIG;
       I2C_COMM_COMPLETE_SIG 1] m =
      (Idle,
       with_me (fun me => back_in_idle (accepted_write from request_id buf me)) m,
       [QACTIVE_POST_self LOCAL_DEVICE_LEVEL_I2C_TRANSACTION_START_RW_SIG;
        QACTIVE_POST_REPLYABLE_REQUEST i2c_comm_ao 1 (write_request buf);
        QACTIVE_POST_REPLYABLE_RESPONSE from request_id
          {| req_type := DEVICE_LEVEL_WRITE; buffer := buf |}]).
Proof.
  intros m from request_id buf. open_device m.
  cbn [ao_device_level i2c_transaction_id]. intros E. subst.
  split; reflexivity.
Qed.

End DeviceLifecycle.

Section DeviceProtocol.
Context {K : constants}.
Import QP Device.

(** X5 -- outside Read and Write a reply from the I2C controller, complete
    or error, whatever id it echoes, is dropped: no call is made, the
    machine stays in its state and the object is as it was.  A reply that
    arrives after its transaction was given up cannot disturb the
    machine. *)
Theorem X5_device_late_replies_dropped :
  forall (s : state) (m : statics) (echoed_id hal_error_code : Z),
    s <> Read -> s <> Write ->
    dispatch s (I2C_COMM_COMPLETE_SIG echoed_id) m = (s, m, []) /\
    dispatch s (I2C_COMM_ERROR_SIG echoed_id hal_error_code) m = (s, m, []).
Proof.
  intros s m echoed_id hal_error_code NR NW. open_device m.
  destruct s; try (exfalso; apply NR; reflexivity); try (exfalso; apply NW; reflexivity);
    split; reflexivity.
Qed.

(** X6 -- in Read and in Write an error reply with an id other than the
    current transaction id is treated like a stale completion: the
    MismatchRespId warning is published and recorded as the last error,
    the last HAL error is not touched, and the machine stays. *)
Theorem X6_device_stale_error_reply_warns :
  forall (m : statics) (echoed_id hal_error_code : Z),
    echoed_id <> i2c_transaction_id (ao_device_level m) ->
    let warned := with_me (set_last_error E_WHOOP_DEVICE_LEVEL_MISMATCH_RESP_ID) m in
    let report := [device_error_report E_WHOOP_DEVICE_LEVEL_MISMATCH_RESP_ID E_S_WHOOP_WARNING] in
    dispatch Read (I2C_COMM_ERROR_SIG echoed_id hal_error_code) m = (Read, warned, report) /\
    dispatch Write (I2C_COMM_ERROR_SIG echoed_id hal_error_code) m = (Write, warned, report).
Proof.
  intros m echoed_id hal_error_code. open_device m.
  cbn [ao_device_level i2c_transaction_id]. intros H.
  apply Z.eqb_neq in H. split; eval_calls; reflexivity.
Qed.

(** X7 -- disabling the device: from every state but Disabled a disable
    request takes the machine to Disabled with the status disabled, and
    the only call is the publication of the disable report by the entry
    of Disabled; in Disabled the request is absorbed without any call or
    change, so a repeated disable publishes nothing. *)
Theorem X7_device_disable :
  forall (s : state) (m : statics),
    (s <> Disabled ->
       result (dispatch s DEVICE_LEVEL_DISABLE_SIG m) = Disabled /\
       status (ao_device_level (object (dispatch s DEVICE_LEVEL_DISABLE_SIG m)))
         = DEVICE_LEVEL_DISABLED /\
       calls (dispatch s DEVICE_LEVEL_DISABLE_SIG m)
         = [QF_PUBLISH_status DEVICE_LEVEL_DISABLE_REPORT_SIG]) /\
    dispatch Disabled DEVICE_LEVEL_DISABLE_SIG m = (Disabled, m, []).
Proof.
  intros s m. open_device m. split; [| reflexivity].
  intros N. destruct s; try (exfalso; apply N; reflexivity);
    refine (conj _ (conj _ _)); reflexivity.
Qed.

(** X8 -- a status request is answered in every state by publishing the
    report for the current status (ready when enabled, disable when
    disabled, error for fatal error and for a status still unknown); it
    is the only call, and neither the state nor the object changes. *)
Theorem X8_device_status_request :
  forall (s : state) (m : statics),
    dispatch s DEVICE_LEVEL_REQ_STAT_SIG m =
      (s, m, [QF_PUBLISH_status (device_report_of (status (ao_device_level m)))]).
Proof.
  intros s m. open_device m. cbn [ao_device_level status].
  destruct s, status0; reflexivity.
Qed.

Lemma device_status_matches_step (s : state) (e : event) (m : statics) :
  device_status_matches s m ->
  device_status_matches (result (dispatch s e m)) (object (dispatch s e m)).
Proof.
  open_device m. destruct s; cbn; intros H;
    destruct e; eval_calls; cbn;
    first [ exact I | reflexivity | assumption | left; reflexivity | right; reflexivity
          | left; assumption | right; assumption
          | destruct H as [H | H]; discriminate H | discriminate H ].
Qed.

(** X9 -- the status mirrors the state.  Across every event, and so from
    start-up through every run of events: in Disabled the status is
    disabled, in Idle, Read and Write (and their superstates) it is
    enabled, in Error it is fatal error, and in Starting it is still the
    status of the state the machine came from, disabled or fatal error. *)
Theorem X9_device_status_mirrors_state :
  (forall (s : state) (e : event) (m : statics),
     device_status_matches s m ->
     device_status_matches (result (dispatch s e m)) (object (dispatch s e m))) /\
  (forall es : list event,
     device_status_matches (result (run_events Disabled es booted))
       (object (run_events Disabled es booted))).
Proof.
  split.
  - apply device_status_matches_step.
  - intros es. apply device_run_invariant.
    + apply device_status_matches_step.
    + reflexivity.
Qed.

Lemma device_status_known_step (s : state) (e : event) (m : statics) :
  status (ao_device_level m) <> DEVICE_LEVEL_UNKNOWN ->
  status (ao_device_level (object (dispatch s e m))) <> DEVICE_LEVEL_UNKNOWN.
Proof.
  open_device m. cbn [ao_device_level status]. intros H.
  destruct s, e; eval_calls; cbn [ao_device_level status];
    first [ assumption | discriminate | exfalso; apply H; reflexivity ].
Qed.

(** X10 -- [device_level_get_status] returns a boolean: it is false for
    the object as initialised and true from start-up on, through every
    run of events, whether the device is disabled, enabled or in fatal
    error. *)
Theorem X10_device_get_status_after_boot :
  device_level_get_status initial_statics = false /\
  (forall es : list event,
     device_level_get_status (object (run_events Disabled es booted)) = true).
Proof.
  split; [reflexivity |]. intros es.
  assert (H : status (ao_device_level (object (run_events Disabled es booted)))
                <> DEVICE_LEVEL_UNKNOWN).
  { apply (device_run_invariant
             (fun _ m => status (ao_device_level m) <> DEVICE_LEVEL_UNKNOWN)).
    - intros s e m. apply device_status_known_step.
    - discriminate. }
  unfold device_level_get_status.
  destruct (status (ao_device_level (object (run_events Disabled es booted))));
    [exfalso; apply H; reflexivity | reflexivity | reflexivity | reflexivity].
Qed.

(** X11 -- a lockup timeout in Starting: with retries left the counter
    goes up by one, the Retry signal is posted and the machine stays in
    Starting; with the retries used up the machine gives up and goes to
    Error: the lockup timer is disarmed, the status becomes fatal error
    and the error report is published. *)
Theorem X11_device_starting_timeout :
  forall m : statics,
    (0 <= device_level_retry_counter m < DEVICE_LEVEL_I2C_ACTIVE_RETRIES ->
       dispatch Starting LOCAL_DEVICE_LEVEL_TIMEOUT_SIG m =
         (Starting, with_retry_counter (device_level_retry_counter m + 1) m,
          [QACTIVE_POST_self LOCAL_DEVICE_LEVEL_RETRY_SIG])) /\
    (DEVICE_LEVEL_I2C_ACTIVE_RETRIES <= device_level_retry_counter m ->
       dispatch Starting LOCAL_DEVICE_LEVEL_TIMEOUT_SIG m =
         (Error,
          with_me (fun me => set_status DEVICE_LEVEL_FATAL_ERROR (set_time_event None me)) m,
          [QF_PUBLISH_status DEVICE_LEVEL_ERROR_REPORT_SIG])).
Proof.
  intros m. open_device m. cbn [device_level_retry_counter].
  unfold DEVICE_LEVEL_I2C_ACTIVE_RETRIES. split; intros H.
  - assert (E : (rc >=? 10) = false) by (rewrite Z.geb_leb; apply Z.leb_gt; lia).
    eval_calls. unfold with_retry_counter. cbn [ao_device_level device_level_retry_counter].
    rewrite uint8_small by lia. reflexivity.
  - apply Z.geb_le in H. eval_calls. reflexivity.
Qed.

(** X12 -- an enable request takes effect in Disabled and in Error only,
    where it takes the machine to Starting with the lockup timer armed
    for initialisation and the enter-idle action posted; in Starting,
    Idle, Read, Write (and in Enabled and Busy) it is absorbed: no call,
    no change. *)
Theorem X12_device_enable_only_from_disabled_or_error :
  forall m : statics,
    let starting := with_me (set_time_event (Some DEVICE_LEVEL_INIT_LOCKUP_TIME_MS)) m in
    let post := [QACTIVE_POST_self LOCAL_DEVICE_LEVEL_ACTION_ENTER_IDLE_SIG] in
    dispatch Disabled DEVICE_LEVEL_ENABLE_SIG m = (Starting, starting, post) /\
    dispatch Error DEVICE_LEVEL_ENABLE_SIG m = (Starting, starting, post) /\
    dispatch Starting DEVICE_LEVEL_ENABLE_SIG m = (Starting, m, []) /\
    dispatch Enabled DEVICE_LEVEL_ENABLE_SIG m = (Enabled, m, []) /\
    dispatch Idle DEVICE_LEVEL_ENABLE_SIG m = (Idle, m, []) /\
    dispatch Busy DEVICE_LEVEL_ENABLE_SIG m = (Busy, m, []) /\
    dispatch Read DEVICE_LEVEL_ENABLE_SIG m = (Read, m, []) /\
    dispatch Write DEVICE_LEVEL_ENABLE_SIG m = (Write, m, []).
Proof.
  intros m. open_device m.
  refine (conj _ (conj _ (conj _ (conj _ (conj _ (conj _ (conj _ _))))))); reflexivity.
Qed.

(** X13 -- signals without a case are dropped in every state: a signal
    the file does not name, and the local Retry signal, which no handler
    has a case for, make no call and change neither state nor object. *)
Theorem X13_device_unhandled_signals_dropped :
  forall (s : state) (m : statics) (sig : Z),
    dispatch s (OTHER_SIG sig) m = (s, m, []) /\
    dispatch s LOCAL_DEVICE_LEVEL_RETRY_SIG m = (s, m, []).
Proof.
  intros s m sig. open_device m. destruct s; split; reflexivity.
Qed.

(** X14 -- the device answers a requester only on the completion of its
    transaction: whatever the state and the event, either no response is
    posted, or the machine is in Read (Write), the event is the
    completion that echoes the current transaction id, the machine goes
    to Idle, and the one response goes to the stored requester under the
    stored request id with the read (write) kind and buffer. *)
Theorem X14_device_responds_only_on_completion :
  forall (s : state) (e : event) (m : statics),
    let me := ao_device_level m in
    let r := dispatch s e m in
    responses (calls r) = [] \/
    (((s = Read /\
       responses (calls r) =
         [(requestor me, device_level_req_id me,
           {| req_type := DEVICE_LEVEL_READ; buffer := read_data me |})]) \/
      (s = Write /\
       responses (calls r) =
         [(requestor me, device_level_req_id me,
           {| req_type := DEVICE_LEVEL_WRITE; buffer := write_data me |})])) /\
     e = I2C_COMM_COMPLETE_SIG (i2c_transaction_id me) /\
     result r = Idle).
Proof.
  intros s e m. open_device m. cbn [ao_device_level].
  destruct s, e; eval_calls;
    first [ left; reflexivity
          | right;
            match goal with
            | H : (_ =? _) = true |- _ => apply Z.eqb_eq in H; subst
            end;
            split;
            [ first [ left; split; reflexivity | right; split; reflexivity ]
            | split; reflexivity ] ].
Qed.

(** X15 -- the retry counter never goes down: through every run of
    events it stays between its value at the start and the bound, so
    retries once used are not given back, and once the bound is reached
    it is kept for good. *)
Theorem X15_device_retries_not_given_back :
  forall (s : state) (es : list event) (m : statics),
    0 <= device_level_retry_counter m <= DEVICE_LEVEL_I2C_ACTIVE_RETRIES ->
    device_level_retry_counter m
      <= device_level_retry_counter (object (run_events s es m))
      <= DEVICE_LEVEL_I2C_ACTIVE_RETRIES.
Proof.
  intros s es m H.
  apply (device_run_invariant
           (fun _ m' => device_level_retry_counter m
                          <= device_level_retry_counter m'
                          <= DEVICE_LEVEL_I2C_ACTIVE_RETRIES)).
  - intros s1 e1 m1 H1.
    destruct (device_retry_counter_step s1 e1 m1) as [E | [E L]]; rewrite E.
    + exact H1.
    + unfold DEVICE_LEVEL_I2C_ACTIVE_RETRIES in *. rewrite uint8_small; lia.
  - lia.
Qed.

(** X16 -- a request is taken up in Idle only: in every other state a
    read or write request leaves the machine in its state and leaves the
    stored requester, request id, operation kind and buffers as they
    were, and no I2C request is made; the request of the operation in
    progress is never overwritten. *)
Theorem X16_device_requests_taken_in_idle_only :
  forall (s : state) (m : statics) (from : QActive) (request_id : Z) (buf : buffer_t),
    s <> Idle ->
    (result (dispatch s (DEVICE_LEVEL_READ_SIG from request_id buf) m) = s /\
     snapshot (object (dispatch s (DEVICE_LEVEL_READ_SIG from request_id buf) m))
       = snapshot m /\
     i2c_requests (calls (dispatch s (DEVICE_LEVEL_READ_SIG from request_id buf) m)) = []) /\
    (result (dispatch s (DEVICE_LEVEL_WRITE_SIG from request_id buf) m) = s /\
     snapshot (object (dispatch s (DEVICE_LEVEL_WRITE_SIG from request_id buf) m))
       = snapshot m /\
     i2c_requests (calls (dispatch s (DEVICE_LEVEL_WRITE_SIG from request_id buf) m)) = []).
Proof.
  intros s m from request_id buf N. open_device m.
  destruct s; try (exfalso; apply N; reflexivity);
    split; refine (conj _ (conj _ _)); reflexivity.
Qed.

End DeviceProtocol.

(* ================================================================== *)
(** * More on the API-level object                                     *)
(* ================================================================== *)

Section ApiLifecycle.
Context {K : constants}.
Import QP Api.

Lemma api_run_cons (s : state) (e : event) (es : list event) (m : statics) :
  run_events s (e :: es) m =
    let '(s1, m1, o1) := dispatch s e m in
    let '(s2, m2, o2) := run_events s1 es m1 in
    (s2, m2, o1 ++ o2).
Proof. reflexivity. Qed.

Lemma api_run_invariant (P : state -> statics -> Prop) :
  (forall s e m, P s m -> P (result (dispatch s e m)) (object (dispatch s e m))) ->
  forall es s m, P s m -> P (result (run_events s es m)) (object (run_events s es m)).
Proof.
  intros step es. induction es as [| e es IH]; intros s m H.
  - exact H.
  - rewrite api_run_cons.
    pose proof (step s e m H) as H1.
    destruct (dispatch s e m) as [[s1 m1] o1]. cbn [result object fst snd] in H1.
    specialize (IH s1 m1 H1).
    destruct (run_events s1 es m1) as [[s2 m2] o2]. exact IH.
Qed.

(** X17 -- enabling the API object: in Disabled the enable request takes
    the machine to Starting, which marks the object busy, subscribes to
    the device's ready report and posts the start action; on the start
    action (and on the Retry signal) Starting arms the lockup timer with
    the initialisation timeout and posts the enable request to the
    device; on the device's ready report it unsubscribes and goes to
    Idle: the lockup timer is disarmed, the status becomes enabled, the
    ready report is published and the object is marked idle. *)
Theorem X17_api_enable_handshake :
  forall m : statics,
    dispatch Disabled API_LEVEL_ENABLE_SIG m =
      (Starting, m,
       [ao_set_busy; QActive_subscribe DEVICE_LEVEL_READY_REPORT_SIG;
        QACTIVE_POST_self LOCAL_API_LEVEL_START_INIT_SIG]) /\
    dispatch Starting LOCAL_API_LEVEL_START_INIT_SIG m =
      (Starting, with_api (set_time_event (Some API_LEVEL_INIT_LOCKUP_TIME_MS)) m,
       [QACTIVE_POST_device DEVICE_LEVEL_ENABLE_SIG]) /\
    dispatch Starting LOCAL_API_LEVEL_RETRY_SIG m =
      (Starting, with_api (set_time_event (Some API_LEVEL_INIT_LOCKUP_TIME_MS)) m,
       [QACTIVE_POST_device DEVICE_LEVEL_ENABLE_SIG]) /\
    dispatch Starting DEVICE_LEVEL_READY_REPORT_SIG m =
      (Idle,
       with_api (fun me => set_status API_LEVEL_ENABLED (set_time_event None me)) m,
       [QActive_unsubscribe DEVICE_LEVEL_READY_REPORT_SIG;
        QF_PUBLISH_status API_LEVEL_READY_REPORT_SIG; ao_set_idle]).
Proof.
  intros m. open_api m. refine (conj _ (conj _ (conj _ _))); reflexivity.
Qed.

(** X18 -- start-up failure: in Starting the device's error report and
    the lockup timeout both end in Error.  The generic error is
    published with error severity, code DeviceUnavailable for the report
    and Timeout for the timer, the code is recorded as the last error,
    the lockup timer is disarmed, the status becomes fatal error, the
    object is marked idle and the error report is published. *)
Theorem X18_api_startup_failure :
  forall m : statics,
    let failed code :=
      with_api (fun me => set_time_event None
                            (set_last_error code (set_status API_LEVEL_FATAL_ERROR me))) m in
    dispatch Starting DEVICE_LEVEL_ERROR_REPORT_SIG m =
      (Error, failed E_WHOOP_API_LEVEL_DEVICE_LEVEL_UNAVAILABLE,
       [api_error_report E_WHOOP_API_LEVEL_DEVICE_LEVEL_UNAVAILABLE E_S_WHOOP_ERROR;
        ao_set_idle; QF_PUBLISH_status API_LEVEL_ERROR_REPORT_SIG]) /\
    dispatch Starting LOCAL_API_LEVEL_TIMEOUT_SIG m =
      (Error, failed E_WHOOP_API_LEVEL_TIMEOUT,
       [api_error_report E_WHOOP_API_LEVEL_TIMEOUT E_S_WHOOP_ERROR;
        ao_set_idle; QF_PUBLISH_status API_LEVEL_ERROR_REPORT_SIG]).
Proof.
  intros m. open_api m. split; reflexivity.
Qed.

(** X19 -- the device's error report takes the API object to Error from
    every state, Disabled and Error included: the status becomes fatal
    error, DeviceUnavailable is recorded as the last error and published
    as a generic error with error severity, and the entry of Error
    publishes the error report. *)
Theorem X19_api_device_error_report :
  forall (s : state) (m : statics),
    let r := dispatch s DEVICE_LEVEL_ERROR_REPORT_SIG m in
    result r = Error /\
    status (ao_api_level (object r)) = API_LEVEL_FATAL_ERROR /\
    api_level_get_last_error (object r) = E_WHOOP_API_LEVEL_DEVICE_LEVEL_UNAVAILABLE /\
    In (api_error_report E_WHOOP_API_LEVEL_DEVICE_LEVEL_UNAVAILABLE E_S_WHOOP_ERROR)
       (calls r) /\
    In (QF_PUBLISH_status API_LEVEL_ERROR_REPORT_SIG) (calls r).
Proof.
  intros s m. open_api m.
  destruct s; eval_hsm;
    refine (conj _ (conj _ (conj _ (conj _ _)))); try reflexivity; auto 6.
Qed.

(** X20 -- disabling the API object: a disable request ends in Disabled
    from every state, and outside Disabled the status becomes disabled
    and the disable report is published.  The device is told to disable
    only when the request reaches the backstop, that is from Starting:
    from Idle and Busy the Enabled state takes the request and from Error
    the Error state does, and neither posts anything to the device; in
    Disabled the request is absorbed without any call. *)
Theorem X20_api_disable :
  forall (s : state) (m : statics),
    let r := dispatch s API_LEVEL_DISABLE_SIG m in
    result r = Disabled /\
    tells_device_to_disable (calls r) =
      match s with
      | Starting | Backstop => true
      | _ => false
      end /\
    (s <> Disabled ->
       status (ao_api_level (object r)) = API_LEVEL_DISABLED /\
       In (QF_PUBLISH_status API_LEVEL_DISABLE_REPORT_SIG) (calls r)) /\
    dispatch Disabled API_LEVEL_DISABLE_SIG m = (Disabled, m, []).
Proof.
  intros s m. open_api m.
  destruct s; eval_hsm;
    (refine (conj _ (conj _ (conj _ _)));
     [ reflexivity | reflexivity
     | intros N; first [ exfalso; apply N; reflexivity | split; [reflexivity | auto 6] ]
     | reflexivity ]).
Qed.

(** X21 -- the busy watchdog: on the busy timeout Busy publishes the
    BusyTimeout error with error severity, records it as the last error
    and goes to Idle: the busy timer is disarmed on the way out, the
    object is marked idle and the status is enabled. *)
Theorem X21_api_busy_timeout :
  forall m : statics,
    dispatch Busy LOCAL_API_LEVEL_BUSY_TIMEOUT_SIG m =
      (Idle,
       with_api (fun me => set_status API_LEVEL_ENABLED
                             (set_busy_event None
                                (set_last_error E_WHOOP_API_LEVEL_BUSY_TIMEOUT me))) m,
       [api_error_report E_WHOOP_API_LEVEL_BUSY_TIMEOUT E_S_WHOOP_ERROR; ao_set_idle]).
Proof.
  intros m. open_api m. reflexivity.
Qed.

Lemma api_not_busy_step (s : state) (e : event) (m : statics) :
  result (dispatch s e m) = Busy -> s = Busy.
Proof.
  open_api m. destruct s, e; eval_calls; intros H;
    first [ reflexivity | discriminate H ].
Qed.

(** X22 -- no handler has a transition to Busy: an event leaves the
    machine in Busy only if it was there, so a machine that is not in
    Busy is never in Busy after any run of events. *)
Theorem X22_api_never_enters_busy :
  forall (s : state) (m : statics),
    s <> Busy ->
    (forall e : event, result (dispatch s e m) <> Busy) /\
    (forall es : list event, result (run_events s es m) <> Busy).
Proof.
  intros s m N. split.
  - intros e H. apply N. eapply api_not_busy_step. exact H.
  - intros es.
    apply (api_run_invariant (fun s' _ => s' <> Busy)).
    + intros s1 e1 m1 N1 H. apply N1. eapply api_not_busy_step. exact H.
    + exact N.
Qed.

Lemma api_status_matches_step (s : state) (e : event) (m : statics) :
  api_status_matches s m ->
  api_status_matches (result (dispatch s e m)) (object (dispatch s e m)).
Proof.
  open_api m. destruct s; cbn; intros H;
    destruct e; eval_calls; cbn;
    first [ exact I | reflexivity | assumption | left; reflexivity | right; reflexivity
          | left; assumption | right; assumption
          | destruct H as [H | H]; discriminate H | discriminate H ].
Qed.

(** X23 -- the status mirrors the state in the API object as well:
    across every event and every run of events, disabled in Disabled,
    enabled in Idle and Busy, fatal error in Error, and in Starting the
    status of the state it was entered from. *)
Theorem X23_api_status_mirrors_state :
  forall (s : state) (m : statics),
    api_status_matches s m ->
    (forall e : event,
       api_status_matches (result (dispatch s e m)) (object (dispatch s e m))) /\
    (forall es : list event,
       api_status_matches (result (run_events s es m)) (object (run_events s es m))).
Proof.
  intros s m H. split.
  - intros e. apply api_status_matches_step. exact H.
  - intros es. apply api_run_invariant; [apply api_status_matches_step | exact H].
Qed.

(** X24 -- a status request publishes the report for the current status
    in every state and changes nothing. *)
Theorem X24_api_status_request :
  forall (s : state) (m : statics),
    dispatch s API_LEVEL_REQ_STATUS_SIG m =
      (s, m, [QF_PUBLISH_status (api_report_of (status (ao_api_level m)))]).
Proof.
  intros s m. open_api m. cbn [ao_api_level status].
  destruct s, status0; reflexivity.
Qed.

Lemma api_status_known_step (s : state) (e : event) (m : statics) :
  status (ao_api_level m) <> API_LEVEL_UNKNOWN ->
  status (ao_api_level (object (dispatch s e m))) <> API_LEVEL_UNKNOWN.
Proof.
  open_api m. cbn [ao_api_level status]. intros H.
  destruct s, e; eval_calls; cbn [ao_api_level status];
    first [ assumption | discriminate | exfalso; apply H; reflexivity ].
Qed.

(** X25 -- [api_level_get_status] returns a boolean: once the status is
    no longer unknown it is true after every run of events, whatever the
    status is. *)
Theorem X25_api_get_status :
  forall (s : state) (es : list event) (m : statics),
    status (ao_api_level m) <> API_LEVEL_UNKNOWN ->
    api_level_get_status (object (run_events s es m)) = true.
Proof.
  intros s es m H0.
  assert (H : status (ao_api_level (object (run_events s es m))) <> API_LEVEL_UNKNOWN).
  { apply (api_run_invariant (fun _ m' => status (ao_api_level m') <> API_LEVEL_UNKNOWN)).
    - intros s1 e1 m1. apply api_status_known_step.
    - exact H0. }
  unfold api_level_get_status.
  destruct (status (ao_api_level (object (run_events s es m))));
    [exfalso; apply H; reflexivity | reflexivity | reflexivity | reflexivity].
Qed.

(** X26 -- what the API object does not follow: the device's disable
    report and the device's response have no case in any handler and are
    dropped in every state, as is any signal the file does not name; the
    device's ready report is dropped everywhere but in Starting. *)
Theorem X26_api_unhandled_signals_dropped :
  forall (s : state) (m : statics),
    dispatch s DEVICE_LEVEL_DISABLE_REPORT_SIG m = (s, m, []) /\
    (forall (echoed_id : Z) (rsp : device_level_response_event_t),
       dispatch s (DEVICE_LEVEL_RESPONSE_SIG echoed_id rsp) m = (s, m, [])) /\
    (forall (sig : Z) (from : QActive) (request_id : Z),
       dispatch s (OTHER_SIG sig from request_id) m = (s, m, [])) /\
    (s <> Starting -> dispatch s DEVICE_LEVEL_READY_REPORT_SIG m = (s, m, [])).
Proof.
  intros s m. open_api m.
  destruct s;
    (refine (conj _ (conj _ (conj _ _)));
     [ reflexivity | intros; reflexivity | intros; reflexivity
     | intros N; first [ reflexivity | exfalso; apply N; reflexivity ] ]).
Qed.

(** After [api_level_initial] the machine is in Disabled with the status
    disabled and nothing deferred. *)
Lemma api_booted_state :
  result (api_level_initial initial_statics) = Disabled /\
  api_status_matches Disabled api_booted /\
  deferred_event_queue (ao_api_level api_booted) = [].
Proof. repeat split. Qed.


End ApiLifecycle.

(* ================================================================== *)
(** * The further properties on concrete inputs                        *)
(* ================================================================== *)

(** X1 on the sample object: the second enter-idle action, in Idle. *)
Lemma X1_device_enable_sequence_witness :
  Device.status (Device.ao_device_level sample_in_flight) = Device.DEVICE_LEVEL_ENABLED /\
  Device.dispatch (K := sample_constants) Device.Idle
      Device.LOCAL_DEVICE_LEVEL_ACTION_ENTER_IDLE_SIG sample_in_flight
    = (Device.Idle, with_me (Device.set_i2c_transaction_id 0) sample_in_flight, []).
Proof.
  split; [reflexivity |].
  apply (proj2 (proj2 (@X1_device_enable_sequence sample_constants sample_in_flight))).
  reflexivity.
Defined.

(** X4 on the object as initialised: a read of the sample buffer. *)
Lemma X4_device_round_trip_witness :
  Device.i2c_transaction_id
    (Device.ao_device_level (Device.initial_statics (K := sample_constants))) = 0 /\
  QP.result
    (Device.run_events (K := sample_constants) Device.Idle
       [Device.DEVICE_LEVEL_READ_SIG 7 42 sample_buffer;
        Device.LOCAL_DEVICE_LEVEL_I2C_TRANSACTION_START_RW_SIG;
        Device.I2C_COMM_COMPLETE_SIG 1]
       (Device.initial_statics (K := sample_constants))) = Device.Idle.
Proof.
  split; [reflexivity |].
  rewrite (proj1 (@X4_device_round_trip sample_constants
                    (Device.initial_statics (K := sample_constants)) 7 42 sample_buffer
                    eq_refl)).
  reflexivity.
Defined.

(** X5 in Idle: a completion for id 1 that comes late. *)
Lemma X5_device_late_replies_dropped_witness :
  Device.Idle <> Device.Read /\ Device.Idle <> Device.Write /\
  Device.dispatch (K := sample_constants) Device.Idle (Device.I2C_COMM_COMPLETE_SIG 1)
      sample_in_flight = (Device.Idle, sample_in_flight, []).
Proof.
  assert (NR : Device.Idle <> Device.Read) by discriminate.
  assert (NW : Device.Idle <> Device.Write) by discriminate.
  refine (conj NR (conj NW _)).
  apply (proj1 (@X5_device_late_replies_dropped sample_constants Device.Idle
                  sample_in_flight 1 0 NR NW)).
Defined.

(** X6 on the sample object: an error reply for id 9 during transaction 1. *)
Lemma X6_device_stale_error_reply_warns_witness :
  9 <> Device.i2c_transaction_id (Device.ao_device_level sample_in_flight) /\
  QP.result (Device.dispatch (K := sample_constants) Device.Read
               (Device.I2C_COMM_ERROR_SIG 9 66) sample_in_flight) = Device.Read.
Proof.
  assert (N : 9 <> Device.i2c_transaction_id (Device.ao_device_level sample_in_flight))
    by discriminate.
  split; [exact N |].
  rewrite (proj1 (@X6_device_stale_error_reply_warns sample_constants sample_in_flight
                    9 66 N)).
  reflexivity.
Defined.

(** X7 on the sample object: a disable request during a read. *)
Lemma X7_device_disable_witness :
  Device.Read <> Device.Disabled /\
  QP.result (Device.dispatch (K := sample_constants) Device.Read
               Device.DEVICE_LEVEL_DISABLE_SIG sample_in_flight) = Device.Disabled.
Proof.
  assert (N : Device.Read <> Device.Disabled) by discriminate.
  split; [exact N |].
  apply (proj1 (proj1 (@X7_device_disable sample_constants Device.Read sample_in_flight) N)).
Defined.

(** X9 at start-up: the enable request in Disabled. *)
Lemma X9_device_status_mirrors_state_witness :
  device_status_matches Device.Disabled (booted (K := sample_constants)) /\
  device_status_matches
    (QP.result (Device.dispatch (K := sample_constants) Device.Disabled
                  Device.DEVICE_LEVEL_ENABLE_SIG (booted (K := sample_constants))))
    (QP.object (Device.dispatch (K := sample_constants) Device.Disabled
                  Device.DEVICE_LEVEL_ENABLE_SIG (booted (K := sample_constants)))).
Proof.
  assert (H : device_status_matches Device.Disabled (booted (K := sample_constants)))
    by reflexivity.
  split; [exact H |].
  apply (proj1 (@X9_device_status_mirrors_state sample_constants) Device.Disabled
           Device.DEVICE_LEVEL_ENABLE_SIG (booted (K := sample_constants)) H).
Defined.

(** X11 on the sample object, taken to be in Starting: the first timeout. *)
Lemma X11_device_starting_timeout_witness :
  0 <= Device.device_level_retry_counter sample_in_flight
    < Device.DEVICE_LEVEL_I2C_ACTIVE_RETRIES /\
  QP.result (Device.dispatch (K := sample_constants) Device.Starting
               Device.LOCAL_DEVICE_LEVEL_TIMEOUT_SIG sample_in_flight) = Device.Starting.
Proof.
  assert (H : 0 <= Device.device_level_retry_counter sample_in_flight
                < Device.DEVICE_LEVEL_I2C_ACTIVE_RETRIES)
    by (split; [intros E; discriminate E | reflexivity]).
  split; [exact H |].
  rewrite (proj1 (@X11_device_starting_timeout sample_constants sample_in_flight) H).
  reflexivity.
Defined.

(** X15 on the sample object: one lockup timeout during the read. *)
Lemma X15_device_retries_not_given_back_witness :
  0 <= Device.device_level_retry_counter sample_in_flight
    <= Device.DEVICE_LEVEL_I2C_ACTIVE_RETRIES /\
  Device.device_level_retry_counter sample_in_flight
    <= Device.device_level_retry_counter
         (QP.object (Device.run_events (K := sample_constants) Device.Read
                       [Device.LOCAL_DEVICE_LEVEL_TIMEOUT_SIG] sample_in_flight)).
Proof.
  assert (H : 0 <= Device.device_level_retry_counter sample_in_flight
                <= Device.DEVICE_LEVEL_I2C_ACTIVE_RETRIES)
    by (split; intros E; discriminate E).
  split; [exact H |].
  apply (proj1 (@X15_device_retries_not_given_back sample_constants Device.Read
                  [Device.LOCAL_DEVICE_LEVEL_TIMEOUT_SIG] sample_in_flight H)).
Defined.

(** X16 on the sample object: a write request from object 8 during the
    read. *)
Lemma X16_device_requests_taken_in_idle_only_witness :
  Device.Read <> Device.Idle /\
  snapshot (QP.object (Device.dispatch (K := sample_constants) Device.Read
                         (Device.DEVICE_LEVEL_WRITE_SIG 8 43 sample_buffer)
                         sample_in_flight)) = snapshot sample_in_flight.
Proof.
  assert (N : Device.Read <> Device.Idle) by discriminate.
  split; [exact N |].
  apply (proj1 (proj2 (proj2 (@X16_device_requests_taken_in_idle_only sample_constants
                                Device.Read sample_in_flight 8 43 sample_buffer N)))).
Defined.

(** X20 on the sample API object: a disable request in Idle. *)
Lemma X20_api_disable_witness :
  Api.Idle <> Api.Disabled /\
  Api.status (Api.ao_api_level
                (QP.object (Api.dispatch (K := sample_constants) Api.Idle
                              Api.API_LEVEL_DISABLE_SIG sample_api)))
    = Api.API_LEVEL_DISABLED.
Proof.
  assert (N : Api.Idle <> Api.Disabled) by discriminate.
  split; [exact N |].
  apply (proj1 (proj1 (proj2 (proj2 (@X20_api_disable sample_constants Api.Idle
                                       sample_api))) N)).
Defined.

(** X22 on the sample API object, from Idle. *)
Lemma X22_api_never_enters_busy_witness :
  Api.Idle <> Api.Busy /\
  QP.result (Api.dispatch (K := sample_constants) Api.Idle (Api.OTHER_SIG 200 7 1)
               sample_api) <> Api.Busy.
Proof.
  assert (N : Api.Idle <> Api.Busy) by discriminate.
  split; [exact N |].
  apply (proj1 (@X22_api_never_enters_busy sample_constants Api.Idle sample_api N)).
Defined.

(** X23 on the sample API object in Busy: the busy timeout. *)
Lemma X23_api_status_mirrors_state_witness :
  api_status_matches Api.Busy sample_api /\
  api_status_matches
    (QP.result (Api.dispatch (K := sample_constants) Api.Busy
                  Api.LOCAL_API_LEVEL_BUSY_TIMEOUT_SIG sample_api))
    (QP.object (Api.dispatch (K := sample_constants) Api.Busy
                  Api.LOCAL_API_LEVEL_BUSY_TIMEOUT_SIG sample_api)).
Proof.
  assert (H : api_status_matches Api.Busy sample_api) by reflexivity.
  split; [exact H |].
  apply (proj1 (@X23_api_status_mirrors_state sample_constants Api.Busy sample_api H)).
Defined.

(** X25 on the sample API object: after the busy timeout. *)
Lemma X25_api_get_status_witness :
  Api.status (Api.ao_api_level sample_api) <> Api.API_LEVEL_UNKNOWN /\
  Api.api_level_get_status
    (QP.object (Api.run_events (K := sample_constants) Api.Busy
                  [Api.LOCAL_API_LEVEL_BUSY_TIMEOUT_SIG] sample_api)) = true.
Proof.
  assert (N : Api.status (Api.ao_api_level sample_api) <> Api.API_LEVEL_UNKNOWN)
    by discriminate.
  split; [exact N |].
  apply (@X25_api_get_status sample_constants Api.Busy
           [Api.LOCAL_API_LEVEL_BUSY_TIMEOUT_SIG] sample_api N).
Defined.

(** X26 on the sample API object: the device's ready report in Idle. *)
Lemma X26_api_unhandled_signals_dropped_witness :
  Api.Idle <> Api.Starting /\
  Api.dispatch (K := sample_constants) Api.Idle Api.DEVICE_LEVEL_READY_REPORT_SIG sample_api
    = (Api.Idle, sample_api, []).
Proof.
  assert (N : Api.Idle <> Api.Starting) by discriminate.
  split; [exact N |].
  apply (proj2 (proj2 (proj2 (@X26_api_unhandled_signals_dropped sample_constants Api.Idle
                                sample_api))) N).
Defined.

